(** * The temperature-log pipeline of [app.py]

    A shallow embedding of the three functions that carry the logic of the
    application: [to_time_label], [to_long] and [load_csv_clean].

    Conventions of the model.
    - A Python [str] is a [string]; a character is its code point, and the
      model covers the code points 0..255.  In that range the decimal
      digits matched by [\d] are exactly ['0'..'9'], and the characters
      removed by [str.strip] are those listed in [isspace].
    - A float is a primitive binary64 float, so [NaN] compares false with
      everything, as in NumPy.
    - A [DataFrame] is the ordered list of its labelled columns; in
      [to_long] the labels are distinct, as [read_csv] makes them, and a
      lookup by label takes the first column of that label.  A column has
      a dtype: object, float64, datetime64, or one of the pandas extension
      dtypes that matter here, the text dtype [str] of pandas 3 and the
      datetime dtype with a time zone.
    - pandas library calls whose behaviour depends on parsing or printing
      text ([read_csv], [to_datetime], the text case of [to_numeric],
      [str] of a number) are parameters; with [errors="coerce"] the two
      conversions are total.  [read_csv] also returns the state in which it
      leaves its input, a path or an open handle.
    - A frame is an object: [to_long] receives a reference into a store of
      frames, so that rebinding [df] and assigning into [df] are told
      apart. *)

From Stdlib Require Import PrimFloat Ascii String List Bool Arith ZArith Lia.
From Stdlib Require Import Sorted Permutation.
From stdpp Require Import base option list strings.

Local Open Scope bool_scope.

(** ** Characters and text *)

Definition isdigit (c : ascii) : bool :=
  (48 <=? nat_of_ascii c)%nat && (nat_of_ascii c <=? 57)%nat.

(** [str.isspace] on the code points 0..255. *)
Definition isspace (c : ascii) : bool :=
  let n := nat_of_ascii c in
  ((9 <=? n)%nat && (n <=? 13)%nat) || ((28 <=? n)%nat && (n <=? 32)%nat)
  || (n =? 133)%nat || (n =? 160)%nat.

Fixpoint lstrip (s : string) : string :=
  match s with
  | String c t => if isspace c then lstrip t else s
  | EmptyString => EmptyString
  end.

Fixpoint rstrip (s : string) : string :=
  match s with
  | String c t =>
      match rstrip t with
      | EmptyString => if isspace c then EmptyString else String c EmptyString
      | t' => String c t'
      end
  | EmptyString => EmptyString
  end.

(** [s.strip()] *)
Definition strip (s : string) : string := rstrip (lstrip s).

(** [s.replace(old, new)] for a one-character [old]. *)
Fixpoint replace_char (old : ascii) (new : string) (s : string) : string :=
  match s with
  | String c t =>
      (if Ascii.eqb c old then new else String c EmptyString) +:+ replace_char old new t
  | EmptyString => EmptyString
  end.

Definition nbsp : ascii := ascii_of_nat 160.

(** [x in xs] for labels. *)
Definition contains (xs : list string) (x : string) : bool :=
  existsb (String.eqb x) xs.

(** ** The time pattern

    [TIME_PAT = re.compile(r"(?:(\d{2})(\d{2}))|(\d{2})")] *)

Module Re.

Record Match := mkMatch {
  group1 : option string;
  group2 : option string;
  group3 : option string
}.

(** [(\d{2})] at the head of [s]: the two digits and what follows. *)
Definition digits2 (s : string) : option (string * string) :=
  match s with
  | String a (String b rest) =>
      if isdigit a && isdigit b
      then Some (String a (String b EmptyString), rest)
      else None
  | _ => None
  end.

(** The first alternative, [(\d{2})(\d{2})]. *)
Definition alt4 (s : string) : option Match :=
  match digits2 s with
  | Some (hh, rest) =>
      match digits2 rest with
      | Some (mm, _) => Some (mkMatch (Some hh) (Some mm) None)
      | None => None
      end
  | None => None
  end.

(** The second alternative, [(\d{2})]. *)
Definition alt2 (s : string) : option Match :=
  match digits2 s with
  | Some (hh, _) => Some (mkMatch None None (Some hh))
  | None => None
  end.

(** The pattern anchored at the head of [s]: alternatives in order. *)
Definition match_here (s : string) : option Match :=
  match alt4 s with
  | Some m => Some m
  | None => alt2 s
  end.

(** [TIME_PAT.search(s)]: the match at the leftmost position that has one. *)
Fixpoint search (s : string) : option Match :=
  match match_here s with
  | Some m => Some m
  | None =>
      match s with
      | String _ t => search t
      | EmptyString => None
      end
  end.

(** Truth value of [m.group(i)]: not [None] and not empty. *)
Definition truthy (g : option string) : bool :=
  match g with
  | Some s => negb (String.eqb s "")
  | None => false
  end.

Definition text (g : option string) : string := default "" g.

End Re.

Definition TIME_ORDER : list string :=
  ["07:00"; "11:00"; "14:00"; "16:00"; "18:00"; "21:00"].

Definition to_time_label (colname : string) : string :=
  match Re.search colname with
  | None => colname
  | Some m =>
      if Re.truthy (Re.group1 m) && Re.truthy (Re.group2 m)
      then Re.text (Re.group1 m) +:+ ":" +:+ Re.text (Re.group2 m)
      else if Re.truthy (Re.group3 m)
      then Re.text (Re.group3 m) +:+ ":00"
      else colname
  end.

(** Two adjacent digits somewhere in [s]. *)
Fixpoint has_digit_pair (s : string) : bool :=
  match s with
  | String a (String b _ as t) => (isdigit a && isdigit b) || has_digit_pair t
  | _ => false
  end.

(** Whether [s] starts with two digits. *)
Definition starts_with_digits2 (s : string) : bool :=
  match s with
  | String a (String b _) => isdigit a && isdigit b
  | _ => false
  end.

(** *** The label as section 4.4 of the specification words it

    Search for (a) a four-digit group whose first two digits are a valid
    hour and whose last two are a valid minute, then (b) a two-digit group,
    then (c) give the raw name back. *)

Module SpecLabel.

Definition number2 (a b : ascii) : nat :=
  10 * (nat_of_ascii a - 48) + (nat_of_ascii b - 48).

Fixpoint find_valid4 (s : string) : option (string * string) :=
  match s with
  | String a t =>
      match t with
      | String b (String c (String d _)) =>
          if isdigit a && isdigit b && isdigit c && isdigit d
             && (number2 a b <? 24)%nat && (number2 c d <? 60)%nat
          then Some (String a (String b ""), String c (String d ""))
          else find_valid4 t
      | _ => None
      end
  | EmptyString => None
  end.

Fixpoint find2 (s : string) : option string :=
  match s with
  | String a t =>
      match t with
      | String b _ =>
          if isdigit a && isdigit b then Some (String a (String b ""))
          else find2 t
      | _ => None
      end
  | EmptyString => None
  end.

Definition time_label (colname : string) : string :=
  match find_valid4 colname with
  | Some (hh, mm) => hh +:+ ":" +:+ mm
  | None =>
      match find2 colname with
      | Some hh => hh +:+ ":00"
      | None => colname
      end
  end.

End SpecLabel.

(** ** Frames

    A cell is a text, a number ([NaN] for a missing number), a timestamp
    (nanoseconds since the epoch) or [NaT], the missing timestamp. *)

Inductive Cell :=
| CStr (s : string)
| CNum (x : float)
| CTime (t : Z)
| CNaT.

(** [DStr] is the text dtype of pandas 3 and [DDatetimeTZ] the datetime
    dtype with a time zone: the two are pandas extension dtypes, the other
    three NumPy dtypes. *)
Inductive DType := DObject | DFloat | DDatetime | DStr | DDatetimeTZ.

Record Column := mkColumn { dtype : DType; cells : list Cell }.

(** The columns keep their order; [nrows] is the length of the index. *)
Record DataFrame := mkFrame { nrows : nat; columns : list (string * Column) }.

(** [df.columns] *)
Definition labels (f : DataFrame) : list string := map fst (columns f).

Fixpoint lookup_col (name : string) (cols : list (string * Column)) : option Column :=
  match cols with
  | (n, c) :: rest => if String.eqb n name then Some c else lookup_col name rest
  | [] => None
  end.

(** [df.rename(columns={old: new})], on a copy. *)
Definition rename_col (old new : string) (f : DataFrame) : DataFrame :=
  mkFrame (nrows f)
    (map (fun p => (if String.eqb (fst p) old then new else fst p, snd p)) (columns f)).

(** [df.drop(columns=[name])], on a copy. *)
Definition drop_col (name : string) (f : DataFrame) : DataFrame :=
  mkFrame (nrows f) (List.filter (fun p => negb (String.eqb (fst p) name)) (columns f)).

(** [df[name] = col]: replaces the column in place, or appends it. *)
Definition set_col (name : string) (col : Column) (f : DataFrame) : DataFrame :=
  mkFrame (nrows f)
    (if contains (labels f) name
     then map (fun p => if String.eqb (fst p) name then (name, col) else p) (columns f)
     else columns f ++ [(name, col)]).

(** The cell of column [name] at row [i]. *)
Definition cell (f : DataFrame) (name : string) (i : nat) : Cell :=
  match lookup_col name (columns f) with
  | Some c => nth i (cells c) (CNum nan)
  | None => CNum nan
  end.

(** [pd.isna] on one cell. *)
Definition isna (c : Cell) : bool :=
  match c with
  | CNaT => true
  | CNum x => is_nan x
  | _ => false
  end.

(** ** Errors and the store of frames *)

Inductive Error :=
| MissingColumns (missing : list string)   (* KeyError, line 51 *)
| NoReadingColumns                          (* KeyError, line 57 *)
| KeyErrorLabel (name : string)             (* pandas: df[name], no such label *)
| TypeErrorDtype                            (* numpy: line 52, not a NumPy dtype *)
| MeltValueName.                            (* pandas: ValueError of melt *)

(** [repr] of a list of plain labels, as the f-string of line 51 prints it. *)
Definition repr_list (xs : list string) : string :=
  "[" +:+ String.concat ", " (map (fun x => "'" +:+ x +:+ "'") xs) +:+ "]".

(** The text of the two errors [to_long] raises itself and of the pandas
    [KeyError]; of the other library errors, the name of the exception. *)
Definition message (e : Error) : string :=
  match e with
  | MissingColumns missing => "Missing required column(s): " +:+ repr_list missing +:+ "."
  | NoReadingColumns => "None of the expected reading columns were found."
  | KeyErrorLabel name => name
  | TypeErrorDtype => "TypeError"
  | MeltValueName => "ValueError"
  end.

(** [np.issubdtype(dtype, np.datetime64)]: NumPy cannot interpret a pandas
    extension dtype and raises [TypeError]. *)
Definition is_datetime64 (d : DType) : Error + bool :=
  match d with
  | DDatetime => inr true
  | DObject | DFloat => inr false
  | DStr | DDatetimeTZ => inl TypeErrorDtype
  end.

(** The dtype is a NumPy dtype, not a pandas extension dtype. *)
Definition numpy_dtype (d : DType) : bool :=
  match d with
  | DObject | DFloat | DDatetime => true
  | DStr | DDatetimeTZ => false
  end.

(** A reference is a position in the store. *)
Abbreviation ref := nat (only parsing).
Abbreviation Store := (list DataFrame) (only parsing).

Definition empty_frame : DataFrame := mkFrame 0 [].

(** A computation reads and updates the store and returns or raises. *)
Definition M (A : Type) : Type := Store -> Store * (Error + A).

#[global] Instance M_ret : MRet M := fun A (a : A) st => (st, inr a).

#[global] Instance M_bind : MBind M := fun A B (k : A -> M B) (m : M A) st =>
  match m st with
  | (st', inr a) => k a st'
  | (st', inl e) => (st', inl e)
  end.

Definition raise {A} (e : Error) : M A := fun st => (st, inl e).

(** A call that reads no frame: it returns or raises. *)
Definition lift {A} (x : Error + A) : M A := fun st => (st, x).

(** The frame a reference points to. *)
Definition frame_at (st : Store) (r : ref) : DataFrame :=
  default empty_frame (st !! r).

Definition load (r : ref) : M DataFrame :=
  fun st => (st, inr (frame_at st r)).

(** A new frame object. *)
Definition alloc (f : DataFrame) : M ref :=
  fun st => (st ++ [f], inr (List.length st)).

(** In-place update of the object behind [r]. *)
Definition update (r : ref) (g : DataFrame -> DataFrame) : M unit :=
  fun st => (alter g r st, inr tt).

(** [df[name]] *)
Definition getitem (r : ref) (name : string) : M Column :=
  f ← load r;
  match lookup_col name (columns f) with
  | Some c => mret c
  | None => raise (KeyErrorLabel name)
  end.

(** [df[name] = col] *)
Definition setitem (r : ref) (name : string) (col : Column) : M unit :=
  update r (set_col name col).

(** ** Rows of the long table

    [V] is the type of the [Value] column and [L] that of the [TimeLabel]
    column at the current line of [to_long] ([unit] while it is absent). *)

Record Row (V L : Type) := mkRow {
  Date : Cell;
  Station : Cell;
  CommonLocation : Cell;
  Location : Cell;
  Time : string;
  Value : V;
  Source : string;
  TimeLabel : L
}.

Arguments mkRow {V L}.
Arguments Date {V L}.
Arguments Station {V L}.
Arguments CommonLocation {V L}.
Arguments Location {V L}.
Arguments Time {V L}.
Arguments Value {V L}.
Arguments Source {V L}.
Arguments TimeLabel {V L}.

Definition with_value {V W L} (g : V -> W) (r : Row V L) : Row W L :=
  mkRow (Date r) (Station r) (CommonLocation r) (Location r) (Time r)
        (g (Value r)) (Source r) (TimeLabel r).

Definition with_label {V L K} (g : Row V L -> K) (r : Row V L) : Row V K :=
  mkRow (Date r) (Station r) (CommonLocation r) (Location r) (Time r)
        (Value r) (Source r) (g r).

(** The output unit: a numeric value and a categorical label, [None] being
    the missing category. *)
Definition LongRecord := Row float (option string).

(** The rows of [df.melt(id_vars=id_vars, value_vars=value_vars,
    var_name="Time", value_name="Value")] followed by
    [["Source"] = source]: one row per reading column and index position,
    column by column. *)
Definition melt_rows (f : DataFrame) (value_vars : list string) (source : string)
  : list (Row Cell unit) :=
  flat_map (fun v =>
    map (fun i =>
      mkRow (cell f "Date" i) (cell f "Station" i) (cell f "Common Location" i)
            (cell f "Location" i) v (cell f v i) source tt)
      (seq 0 (nrows f)))
    value_vars.

(** [df.melt(...)]: pandas raises [ValueError] when [value_name] is
    already the label of a column of the frame. *)
Definition melt (f : DataFrame) (value_vars : list string) (source : string)
  : Error + list (Row Cell unit) :=
  if contains (labels f) "Value" then inl MeltValueName
  else inr (melt_rows f value_vars source).

(** [pd.Categorical(values, categories=cats)] on one value. *)
Definition Categorical (cats : list string) (x : string) : option string :=
  if contains cats x then Some x else None.

Definition required_id_cols : list string :=
  ["Date"; "Station"; "Common Location"; "Location"].

Definition BMS_COLS : list string :=
  ["0700_BMS"; "1100_BMS"; "1400_BMS"; "1600_BMS"; "1800_BMS"; "2100_BMS"].

Definition MANUAL_COLS : list string :=
  ["Manual07"; "Manual11"; "Manual14"; "Manual16"; "Manual18"; "Manual21"].

Definition is_nil {A} (l : list A) : bool :=
  match l with [] => true | _ => false end.

(** Lines 44-47: the alias column. *)
Definition alias_repair (df : ref) : M ref :=
  f ← load df;
  if negb (contains (labels f) "Station") && contains (labels f) "Staion"
  then alloc (rename_col "Staion" "Station" f)
  else if contains (labels f) "Station" && contains (labels f) "Staion"
  then alloc (drop_col "Staion" f)
  else mret df.

(** Lines 48-51: the identifier columns. *)
Definition missing_cols (f : DataFrame) : list string :=
  List.filter (fun c => negb (contains (labels f) c)) required_id_cols.

Definition check_required (df : ref) : M unit :=
  f ← load df;
  if negb (is_nil (missing_cols f)) then raise (MissingColumns (missing_cols f))
  else mret tt.

(** Lines 72-73: the label of the [Time] column, then the categorical. *)
Definition assign_time_label {V} (out : list (Row V unit)) : list (Row V (option string)) :=
  let out := map (with_label (fun r => to_time_label (Time r))) out in
  map (with_label (fun r => Categorical TIME_ORDER (TimeLabel r))) out.

(** One row through lines 72-73. *)
Definition labelled {V} (r : Row V unit) : Row V (option string) :=
  with_label (fun r => Categorical TIME_ORDER (TimeLabel r))
    (with_label (fun r => to_time_label (Time r)) r).

(** Lines 70-71: [dropna(subset=["Value", "Date"])] and the range mask. *)
Definition not_missing {L} (r : Row float L) : bool :=
  negb (is_nan (Value r)) && negb (isna (Date r)).

Definition in_range {L} (r : Row float L) : bool :=
  (15 <=? Value r)%float && (Value r <=? 50)%float.

(** ** The pandas calls that read text *)

Class PandasOps := {
  (** [pd.to_datetime(col, errors="coerce")] on the cells of a column. *)
  to_datetime_coerce : list Cell -> list Cell;
  (** [pd.to_numeric(text, errors="coerce")]: [NaN] when not a number. *)
  float_of_text : string -> float;
  (** [str(x)] of a float and of a timestamp. *)
  str_of_float : float -> string;
  str_of_time : Z -> string
}.

Section ToLong.

Context {ops : PandasOps}.

(** [pd.to_numeric(x, errors="coerce")] on one cell of the melted [Value]
    column: a number stays, a text is parsed, anything else is coerced to
    [NaN]. *)
Definition to_numeric (c : Cell) : float :=
  match c with
  | CNum x => x
  | CStr s => float_of_text s
  | CTime _ | CNaT => nan
  end.

(** [x.astype(str)] on one cell. *)
Definition astype_str (c : Cell) : string :=
  match c with
  | CStr s => s
  | CNum x => str_of_float x
  | CTime t => str_of_time t
  | CNaT => "NaT"
  end.

(** Line 74: neither [Station] nor [Location] is blank. *)
Definition not_blank {V L} (r : Row V L) : bool :=
  negb (String.eqb (strip (astype_str (Station r))) "")
  && negb (String.eqb (strip (astype_str (Location r))) "").

(** Lines 52-53: the [Date] column becomes a datetime column. *)
Definition parse_dates (df : ref) : M unit :=
  date ← getitem df "Date";
  is_datetime ← lift (is_datetime64 (dtype date));
  if negb is_datetime
  then setitem df "Date" (mkColumn DDatetime (to_datetime_coerce (cells date)))
  else mret tt.

(** Lines 69-75 on the concatenated frame. *)
Definition validate (out : list (Row Cell unit)) : list LongRecord :=
  let out := map (with_value to_numeric) out in
  let out := List.filter not_missing out in
  let out := List.filter in_range out in
  let out := assign_time_label out in
  List.filter not_blank out.

(** Lines 54-68: the reading columns that are present, melted per family,
    the manual family first. *)
Definition reshape (f : DataFrame) : Error + list (Row Cell unit) :=
  let bms_cols := List.filter (contains (labels f)) BMS_COLS in
  let manual_cols := List.filter (contains (labels f)) MANUAL_COLS in
  if is_nil bms_cols && is_nil manual_cols then inl NoReadingColumns
  else
    let frames := [] in
    match (if negb (is_nil manual_cols)
           then match melt f manual_cols "Manual" with
                | inl e => inl e
                | inr m => inr (frames ++ [m])
                end
           else inr frames) with
    | inl e => inl e
    | inr frames =>
        match (if negb (is_nil bms_cols)
               then match melt f bms_cols "BMS" with
                    | inl e => inl e
                    | inr b => inr (frames ++ [b])
                    end
               else inr frames) with
        | inl e => inl e
        | inr frames => inr (concat frames)
        end
    end.

(** [to_long], lines 43-75. *)
Definition to_long (df : ref) : M (list LongRecord) :=
  df ← alias_repair df;
  check_required df;;
  parse_dates df;;
  f ← load df;
  match reshape f with
  | inl e => raise e
  | inr out => mret (validate out)
  end.

End ToLong.

(** ** The loader *)

Inductive ErrorsPolicy := Strict | Replace.

(** An exception raised by [pd.read_csv]: whether it is a decoding error,
    and its text. *)
Record Exception := mkException { unicode_error : bool; exn_text : string }.

(** [str(last_err)] *)
Definition str_of_err (e : option Exception) : string :=
  match e with
  | Some e => exn_text e
  | None => "None"
  end.

Definition encodings_to_try : list string :=
  ["cp1252"; "latin1"; "utf-8-sig"; "utf-8"].

(** [.str.replace("\xa0", " ", regex=False).str.strip()] on one text. *)
Definition clean_text (s : string) : string :=
  strip (replace_char nbsp " " s).

(** What leaves the loader: an exception of [pd.read_csv], or the
    [AttributeError] of line 27, with the label of the column it is raised
    on. *)
Inductive LoadError :=
| Raised (e : Exception)
| AttributeError (label : string).

Definition is_text (c : Cell) : bool :=
  match c with CStr _ => true | _ => false end.

Definition is_number (c : Cell) : bool :=
  match c with CNum x => negb (is_nan x) | _ => false end.

Definition is_time (c : Cell) : bool :=
  match c with CTime _ => true | _ => false end.

(** Whether [col.str] is allowed.  On the text dtype it is.  On dtype
    object pandas looks at the values that are not missing
    ([lib.infer_dtype]): texts alone, no value at all, or values of several
    kinds are allowed; numbers alone or timestamps alone are not. *)
Definition str_accessor_ok (c : Column) : bool :=
  match dtype c with
  | DStr => true
  | _ =>
      existsb is_text (cells c)
      || negb (xorb (existsb is_number (cells c)) (existsb is_time (cells c)))
  end.

(** Line 27 on one column: through [.str], a cell that is not a text
    comes back as the missing value. *)
Definition clean_column (c : Column) : Column :=
  mkColumn (dtype c)
    (map (fun x => match x with CStr s => CStr (clean_text s) | _ => CNum nan end)
         (cells c)).

(** Line 25: the labels. *)
Definition clean_labels (f : DataFrame) : DataFrame :=
  mkFrame (nrows f) (map (fun p => (clean_text (fst p), snd p)) (columns f)).

Fixpoint count_label (name : string) (ls : list string) : nat :=
  match ls with
  | l :: t => (if String.eqb l name then 1 else 0) + count_label name t
  | [] => 0
  end.

Definition fallback_warning (last_err : option Exception) : string :=
  "Loaded with encoding='cp1252' and encoding_errors='replace' due to: "
  +:+ str_of_err last_err.

Section Loader.

Context {File : Type}.

(** [pd.read_csv(file, encoding=, parse_dates=, encoding_errors=)]: the
    frame or the exception, and the input as the call leaves it.  A path
    is left as it was; an open handle is left where the reading stopped. *)
Variable read_csv :
  File -> string -> option (list string) -> ErrorsPolicy
  -> File * (Exception + DataFrame).

(** Whether [select_dtypes(include="object")] also selects the columns of
    the text dtype [str]: pandas 3 does, for backward compatibility. *)
Variable object_selects_str : bool.

Definition selected (d : DType) : bool :=
  match d with
  | DObject => true
  | DStr => object_selects_str
  | _ => false
  end.

(** Lines 26-27, column by column.  [df_local[col]] is a frame, which has
    no [.str], when the label [col] is borne by more than one column. *)
Fixpoint clean_columns (all_labels : list string) (cols : list (string * Column))
  : LoadError + list (string * Column) :=
  match cols with
  | [] => inr []
  | (col, c) :: rest =>
      if selected (dtype c)
      then
        if (1 <? count_label col all_labels)%nat then inl (AttributeError col)
        else if negb (str_accessor_ok c) then inl (AttributeError col)
        else match clean_columns all_labels rest with
             | inl e => inl e
             | inr rest' => inr ((col, clean_column c) :: rest')
             end
      else match clean_columns all_labels rest with
           | inl e => inl e
           | inr rest' => inr ((col, c) :: rest')
           end
  end.

(** Lines 25-27. *)
Definition clean_frame (f : DataFrame) : LoadError + DataFrame :=
  let df_local := clean_labels f in
  match clean_columns (labels df_local) (columns df_local) with
  | inl e => inl e
  | inr cols => inr (mkFrame (nrows df_local) cols)
  end.

(** Lines 16-21: the loop stops at the first encoding that reads; every
    attempt finds the input as the attempt before left it. *)
Fixpoint try_encodings (file : File) (parse_dates : option (list string))
    (encs : list string) (last_err : option Exception)
  : File * option DataFrame * option Exception :=
  match encs with
  | [] => (file, None, last_err)
  | enc :: encs' =>
      match read_csv file enc parse_dates Strict with
      | (file', inr df_local) => (file', Some df_local, last_err)
      | (file', inl e) => try_encodings file' parse_dates encs' (Some e)
      end
  end.

(** The input as the loader leaves it, the warnings shown by
    [st.warning], and the frame returned or the exception that escapes. *)
Definition load_csv_clean (file : File) (parse_dates : option (list string))
  : File * list string * (LoadError + DataFrame) :=
  let '(file, df_local, last_err) :=
    try_encodings file parse_dates encodings_to_try None in
  match df_local with
  | Some df_local => (file, [], clean_frame df_local)
  | None =>
      match read_csv file "cp1252" parse_dates Replace with
      | (file, inl e) => (file, [], inl (Raised e))
      | (file, inr df_local) =>
          (file, [fallback_warning last_err], clean_frame df_local)
      end
  end.

(** Every read leaves the input as it found it: the input is a path. *)
Definition rereadable : Prop :=
  forall file enc parse_dates policy,
    fst (read_csv file enc parse_dates policy) = file.

(** Reading [file] with encoding [enc] and strict decoding raises. *)
Definition strict_fails (file : File) (parse_dates : option (list string))
    (enc : string) : Prop :=
  exists e, snd (read_csv file enc parse_dates Strict) = inl e.

End Loader.

(** ** Concrete inputs *)

Module Sample.

Fixpoint assoc {A} (d : A) (k : string) (t : list (string * A)) : A :=
  match t with
  | (k', a) :: t' => if String.eqb k k' then a else assoc d k t'
  | [] => d
  end.

(** Text parsing by table: the dates and numbers listed are recognised,
    any other text is not.  The identifiers of the samples below are
    texts, so the two printers are never called on them. *)
Definition table_ops (dates : list (string * Z)) (numbers : list (string * float))
  : PandasOps :=
  {| to_datetime_coerce :=
       map (fun c =>
         match c with
         | CTime t => CTime t
         | CStr s => assoc CNaT s (map (fun p => (fst p, CTime (snd p))) dates)
         | _ => CNaT
         end);
     float_of_text := fun s => assoc nan s numbers;
     str_of_float := fun _ => "1.0";
     str_of_time := fun _ => "2024-01-01 00:00:00" |}.

(** 2024-01-01T00:00:00 in nanoseconds since the epoch. *)
Definition jan1 : Z := 1704067200000000000.

Definition ops : PandasOps :=
  table_ops [("2024-01-01", jan1)] [("26.5", 26.5%float); ("5", 5%float)].

Definition text_col (l : list string) : Column := mkColumn DObject (map CStr l).
Definition float_col (l : list float) : Column := mkColumn DFloat (map CNum l).
Definition time_col (l : list Z) : Column := mkColumn DDatetime (map CTime l).

(** The one-row table of the end-to-end scenario: as it is worded, and
    with the [Common Location] column that [to_long] requires. *)
Definition scenario_as_worded : DataFrame :=
  mkFrame 1 [("Date", time_col [jan1]); ("Station", text_col ["A"]);
             ("Location", text_col ["Platform1"]);
             ("1400_BMS", float_col [26.5%float])].

Definition scenario (date common : Column) : DataFrame :=
  mkFrame 1 [("Date", date); ("Station", text_col ["A"]);
             ("Common Location", common);
             ("Location", text_col ["Platform1"]);
             ("1400_BMS", float_col [26.5%float])].

Definition scenario_record (common : Cell) : LongRecord :=
  mkRow (CTime jan1) (CStr "A") common (CStr "Platform1")
        "1400_BMS" 26.5%float "BMS" (Some "14:00").

(** A table without the [Location] column. *)
Definition no_location : DataFrame :=
  mkFrame 1 [("Date", time_col [jan1]); ("Station", text_col ["A"]);
             ("Common Location", text_col ["North"]);
             ("1400_BMS", float_col [26.5%float])].

(** Both spellings of the station column, with different values. *)
Definition both_stations : DataFrame :=
  mkFrame 2 [("Date", time_col [jan1; jan1]); ("Staion", text_col ["X"; "Y"]);
             ("Station", text_col ["A"; "B"]);
             ("Common Location", text_col ["North"; "South"]);
             ("Location", text_col ["Platform1"; "Concourse"]);
             ("Manual07", float_col [20%float; 30%float])].


(** Rows with each kind of data-quality issue, and a blank
    [Common Location] on a good row. *)
Definition messy : DataFrame :=
  mkFrame 6
    [("Date", text_col ["2024-01-01"; "2024-01-01"; "2024-01-01"; "not a date";
                        "2024-01-01"; "2024-01-01"]);
     ("Station", text_col ["A"; "A"; "A"; "A"; "   "; "A"]);
     ("Common Location", text_col [" "; "North"; "North"; "North"; "North"; "North"]);
     ("Location", text_col ["Platform1"; "Platform1"; "Platform1"; "Platform1";
                            "Platform1"; ""]);
     ("1400_BMS", text_col ["26.5"; "n/a"; "5"; "26.5"; "26.5"; "26.5"])].

(** A frame whose [Date] column is still text and that has no alias
    column: [df] stays bound to the caller's object. *)
Definition text_dates : DataFrame :=
  mkFrame 1 [("Date", text_col ["2024-01-01"]); ("Station", text_col ["A"]);
             ("Common Location", text_col ["North"]);
             ("Location", text_col ["Platform1"]);
             ("1400_BMS", float_col [26.5%float])].

(** A file that no strict encoding reads, named by its path. *)
Definition undecodable (_ : unit) (enc : string) (_ : option (list string))
    (policy : ErrorsPolicy) : unit * (Exception + DataFrame) :=
  match policy with
  | Strict => (tt, inl (mkException true ("'" +:+ enc +:+ "' codec can't decode byte")))
  | Replace => (tt, inr text_dates)
  end.

(** A file that only [latin1] and the later encodings read, named by its
    path. *)
Definition latin1_file (_ : unit) (enc : string) (_ : option (list string))
    (policy : ErrorsPolicy) : unit * (Exception + DataFrame) :=
  if String.eqb enc "cp1252"
  then match policy with
       | Strict => (tt, inl (mkException true "'charmap' codec can't decode byte 0x81"))
       | Replace => (tt, inr text_dates)
       end
  else (tt, inr both_stations).

End Sample.

(** The frame [to_long] goes on with after lines 44-47. *)



(** ** Sorting and first occurrences

    [sorted(xs)] for a total order in which equal elements are the same
    value, and [unique()] / [dict.fromkeys], which keep the first
    occurrence of every value in the order of appearance. *)

Section Sorting.

Context {A : Type} (leb : A -> A -> bool).

Fixpoint insert_by (x : A) (l : list A) : list A :=
  match l with
  | [] => [x]
  | y :: t => if leb x y then x :: l else y :: insert_by x t
  end.

Definition sort_by (l : list A) : list A := fold_right insert_by [] l.

End Sorting.

Fixpoint unique_by {A} (eqb : A -> A -> bool) (l : list A) : list A :=
  match l with
  | [] => []
  | x :: t => x :: List.filter (fun y => negb (eqb y x)) (unique_by eqb t)
  end.

Definition sorted_str : list string -> list string := sort_by String.leb.
Definition unique_str : list string -> list string := unique_by String.eqb.

(** ** Reference lines, lines 131-143 *)

(** [s.startswith(p)] *)
Fixpoint starts_with (p s : string) : bool :=
  match p, s with
  | EmptyString, _ => true
  | String a p', String b s' => Ascii.eqb a b && starts_with p' s'
  | String _ _, EmptyString => false
  end.

(** [needle in s] *)
Fixpoint str_in (needle s : string) : bool :=
  starts_with needle s
  || match s with
     | String _ t => str_in needle t
     | EmptyString => false
     end.

(** [24 if ("Platform" in str(loc)) else 28] *)
Definition reference (loc : string) : Z :=
  if str_in "Platform" loc then 24%Z else 28%Z.

(** One call of [fig.add_hline]: the height and, with facets, the cell. *)
Record HLine := mkHLine { y : Z; row : option nat; col : option nat }.

(** [enumerate(l, start=start)] *)
Definition enumerate {A} (start : nat) (l : list A) : list (nat * A) :=
  combine (seq start (List.length l)) l.

(** Lines 132-139, [columns = 4]. *)
Definition facet_lines (loc_order : list string) : list HLine :=
  map (fun p => mkHLine (reference (snd p))
                        (Some (1 + (fst p - 1) / 4))
                        (Some (1 + (fst p - 1) mod 4)))
      (enumerate 1 loc_order).

(** Lines 141-143: the set of the references, sorted. *)
Definition unique_refs (sel_locs : list string) : list Z :=
  sort_by Z.leb (unique_by Z.eqb (map reference sel_locs)).

Definition plain_lines (sel_locs : list string) : list HLine :=
  map (fun ref => mkHLine ref None None) (unique_refs sel_locs).

(** ** The sidebar and the mask, lines 86-116 *)

Definition day_ns : Z := 86400000000000.

(** [.dt.date] on one cell, as the number of the day; none on [NaT]. *)
Definition dt_date (c : Cell) : option Z :=
  match c with
  | CTime t => Some (t / day_ns)%Z
  | _ => None
  end.

(** [date >= x] and [date <= x]; false on a missing date. *)
Definition date_ge (d : option Z) (x : Z) : bool :=
  match d with
  | Some d => (x <=? d)%Z
  | None => false
  end.

Definition date_le (d : option Z) (x : Z) : bool :=
  match d with
  | Some d => (d <=? x)%Z
  | None => false
  end.

(** [cell == s] for a text [s]: false on a cell that is not a text. *)
Definition eq_text (c : Cell) (s : string) : bool :=
  match c with
  | CStr t => String.eqb t s
  | _ => false
  end.

(** [str] of a category: the missing category prints as "nan". *)
Definition label_str (l : option string) : string := default "nan" l.

(** The timestamps of a column, [NaT] skipped. *)
Definition timestamps (l : list Cell) : list Z :=
  flat_map (fun c => match c with CTime t => [t] | _ => [] end) l.

(** [Series.min()] and [Series.max()]; none when there is no timestamp. *)
Definition series_min (l : list Z) : option Z :=
  match l with
  | [] => None
  | x :: t => Some (fold_left Z.min t x)
  end.

Definition series_max (l : list Z) : option Z :=
  match l with
  | [] => None
  | x :: t => Some (fold_left Z.max t x)
  end.

(** What the widgets of the sidebar return. *)
Record Selection := mkSelection {
  start_date : Z;
  end_date : Z;
  sel_station : string;
  sel_locs : list string;
  sel_sources : list string;
  sel_times : list string
}.

Section Sidebar.

Context {ops : PandasOps}.

(** Lines 88-90: the default of the date range. *)
Definition default_range (df_long : list LongRecord) : option (Z * Z) :=
  match series_min (timestamps (map Date df_long)),
        series_max (timestamps (map Date df_long)) with
  | Some lo, Some hi => Some ((lo / day_ns)%Z, (hi / day_ns)%Z)
  | _, _ => None
  end.

(** Line 91 *)
Definition stations (df_long : list LongRecord) : list string :=
  sorted_str (unique_str (map astype_str
    (List.filter (fun c => negb (isna c)) (map Station df_long)))).

(** Line 95 *)
Definition avail_locs (df_long : list LongRecord) (sel_station : string) : list string :=
  sorted_str (unique_str (map astype_str
    (List.filter (fun c => negb (isna c))
       (map Location
          (List.filter (fun r => String.eqb (astype_str (Station r)) sel_station)
             df_long))))).

(** Line 97 *)
Definition sources (df_long : list LongRecord) : list string :=
  sorted_str (unique_str (map Source df_long)).

(** Line 99 *)
Definition times (df_long : list LongRecord) : list string :=
  List.filter
    (contains (unique_str (map (fun r => label_str (TimeLabel r)) df_long)))
    TIME_ORDER.

(** The selection when every widget is left at its default, for the
    station [s]. *)
Definition default_selection (df_long : list LongRecord) (s : string)
  : option Selection :=
  match default_range df_long with
  | Some (lo, hi) =>
      Some (mkSelection lo hi s (avail_locs df_long s) (sources df_long) (times df_long))
  | None => None
  end.

(** Lines 103-110 *)
Definition mask (sel : Selection) (r : LongRecord) : bool :=
  date_ge (dt_date (Date r)) (start_date sel)
  && date_le (dt_date (Date r)) (end_date sel)
  && eq_text (Station r) (sel_station sel)
  && contains (sel_locs sel) (astype_str (Location r))
  && contains (sel_sources sel) (Source r)
  && contains (sel_times sel) (label_str (TimeLabel r)).

(** Line 112 *)
Definition filtered (sel : Selection) (df_long : list LongRecord) : list LongRecord :=
  List.filter (mask sel) df_long.

(** Line 132 *)
Definition loc_order (filtered : list LongRecord) : list string :=
  sorted_str (unique_str (map (fun r => astype_str (Location r)) filtered)).

(** Lines 131-143: the calls of [fig.add_hline]. *)
Definition reference_lines (facet_by_location : bool) (filtered : list LongRecord)
    (sel_locs : list string) : list HLine :=
  if facet_by_location then facet_lines (loc_order filtered)
  else plain_lines sel_locs.

End Sidebar.

Module Cases.


(** Both families, two rows. *)
Definition two_families : DataFrame :=
  mkFrame 2 [("Date", Sample.time_col [Sample.jan1; Sample.jan1]);
             ("Station", Sample.text_col ["A"; "B"]);
             ("Common Location", Sample.text_col ["North"; "South"]);
             ("Location", Sample.text_col ["Platform1"; "Concourse"]);
             ("1400_BMS", Sample.float_col [26.5%float; 60%float]);
             ("Manual07", Sample.float_col [20%float; 30%float])].

(** Date texts in a column of the text dtype of pandas 3, one of them
    not a date; the same cells in a column of dtype object. *)
Definition str_dates : DataFrame :=
  mkFrame 2 [("Date", mkColumn DStr [CStr "2024-01-01"; CStr "not a date"]);
             ("Station", Sample.text_col ["A"; "A"]);
             ("Common Location", Sample.text_col ["North"; "North"]);
             ("Location", Sample.text_col ["Platform1"; "Platform1"]);
             ("1400_BMS", Sample.float_col [26.5%float; 27%float])].

Definition object_dates : DataFrame :=
  mkFrame 2 [("Date", Sample.text_col ["2024-01-01"; "not a date"]);
             ("Station", Sample.text_col ["A"; "A"]);
             ("Common Location", Sample.text_col ["North"; "North"]);
             ("Location", Sample.text_col ["Platform1"; "Platform1"]);
             ("1400_BMS", Sample.float_col [26.5%float; 27%float])].

(** Dates with a time zone, as [parse_dates] reads dates that carry a UTC
    offset. *)
Definition tz_dates : DataFrame :=
  mkFrame 1 [("Date", mkColumn DDatetimeTZ [CTime Sample.jan1]);
             ("Station", Sample.text_col ["A"]);
             ("Common Location", Sample.text_col ["North"]);
             ("Location", Sample.text_col ["Platform1"]);
             ("1400_BMS", Sample.float_col [26.5%float])].

(** A frame that already has a column labelled [Value]. *)
Definition value_column : DataFrame :=
  mkFrame 1 [("Date", Sample.time_col [Sample.jan1]);
             ("Station", Sample.text_col ["A"]);
             ("Common Location", Sample.text_col ["North"]);
             ("Location", Sample.text_col ["Platform1"]);
             ("1400_BMS", Sample.float_col [26.5%float]);
             ("Value", Sample.float_col [1%float])].


(** An open handle on a file with a byte that cp1252 does not decode:
    at the start of the file, or where a read has left it. *)
Inductive Handle := AtStart | Consumed.

Definition decode_error : Exception :=
  mkException true "'charmap' codec can't decode byte 0x81".

Definition empty_data_error : Exception :=
  mkException false "No columns to parse from file".

(** The reads of that file through the handle, which no read rewinds. *)
Definition handle_read (h : Handle) (enc : string) (_ : option (list string))
    (policy : ErrorsPolicy) : Handle * (Exception + DataFrame) :=
  match h with
  | Consumed => (Consumed, inl empty_data_error)
  | AtStart =>
      match policy with
      | Strict =>
          if String.eqb enc "cp1252" then (Consumed, inl decode_error)
          else (Consumed, inr Sample.text_dates)
      | Replace => (Consumed, inr Sample.text_dates)
      end
  end.

(** The reads of the same file through its path. *)
Definition path_read (p : unit) (enc : string) (parse_dates : option (list string))
    (policy : ErrorsPolicy) : unit * (Exception + DataFrame) :=
  (tt, snd (handle_read AtStart enc parse_dates policy)).

(** Headers and cells as a hand-edited export has them. *)
Definition raw_export : DataFrame :=
  mkFrame 1 [(" Date", Sample.text_col ["2024-01-01 "]);
             (String nbsp "Station", Sample.text_col [String nbsp " A"]);
             ("1400_BMS ", Sample.float_col [26.5%float])].

Definition raw_export_clean : DataFrame :=
  mkFrame 1 [("Date", Sample.text_col ["2024-01-01"]);
             ("Station", Sample.text_col ["A"]);
             ("1400_BMS", Sample.float_col [26.5%float])].





Definition two_families_out : list LongRecord :=
  [mkRow (CTime Sample.jan1) (CStr "A") (CStr "North") (CStr "Platform1")
         "Manual07" 20%float "Manual" (Some "07:00");
   mkRow (CTime Sample.jan1) (CStr "B") (CStr "South") (CStr "Concourse")
         "Manual07" 30%float "Manual" (Some "07:00");
   mkRow (CTime Sample.jan1) (CStr "A") (CStr "North") (CStr "Platform1")
         "1400_BMS" 26.5%float "BMS" (Some "14:00")].

End Cases.

(** ** Texts after cleaning *)

(** [c in s] for a character. *)
Fixpoint has_char (c : ascii) (s : string) : bool :=
  match s with
  | String x t => Ascii.eqb x c || has_char c t
  | EmptyString => false
  end.

Definition starts_with_space (s : string) : bool :=
  match s with
  | String c _ => isspace c
  | EmptyString => false
  end.

Fixpoint ends_with_space (s : string) : bool :=
  match s with
  | String c EmptyString => isspace c
  | String _ t => ends_with_space t
  | EmptyString => false
  end.

(** No non-breaking space, and no whitespace at either end. *)
Definition normal_text (s : string) : Prop :=
  has_char nbsp s = false
  /\ starts_with_space s = false
  /\ ends_with_space s = false.

(** A cell of a cleaned object column: a normal text, or the missing
    value. *)
Definition normal_cell (c : Cell) : Prop :=
  (exists s, c = CStr s /\ normal_text s) \/ c = CNum nan.

Definition normal_frame (f : DataFrame) : Prop :=
  Forall normal_text (labels f)
  /\ Forall (fun p => dtype (snd p) = DObject -> Forall normal_cell (cells (snd p)))
            (columns f).

(** * Properties *)

(** ** [to_time_label] *)

Lemma append_cons (x : ascii) (s t : string) :
  String x s +:+ t = String x (s +:+ t).
Proof. reflexivity. Qed.

Lemma append_nil (t : string) : "" +:+ t = t.
Proof. reflexivity. Qed.

Ltac norm_append := rewrite ?append_cons, ?append_nil in *.

Lemma search_cons (x : ascii) (s : string) :
  Re.search (String x s)
  = match Re.match_here (String x s) with
    | Some m => Some m
    | None => Re.search s
    end.
Proof. reflexivity. Qed.

Lemma match_here_none (x y : ascii) (s : string) :
  isdigit x && isdigit y = false -> Re.match_here (String x (String y s)) = None.
Proof.
  intros H. unfold Re.match_here, Re.alt4, Re.alt2, Re.digits2. now rewrite H.
Qed.

Lemma match_here_pair (a b : ascii) (post : string) :
  isdigit a = true -> isdigit b = true ->
  Re.match_here (String a (String b post))
  = match Re.digits2 post with
    | Some (mm, _) =>
        Some (Re.mkMatch (Some (String a (String b ""))) (Some mm) None)
    | None => Some (Re.mkMatch None None (Some (String a (String b ""))))
    end.
Proof.
  intros Ha Hb. unfold Re.match_here, Re.alt4, Re.alt2.
  change (Re.digits2 (String a (String b post)))
    with (if isdigit a && isdigit b
          then Some (String a (String b ""), post) else None).
  rewrite Ha, Hb. cbn [andb]. now destruct (Re.digits2 post) as [[mm rest]|].
Qed.

Lemma search_skip (pre : string) (a : ascii) (rest : string) :
  has_digit_pair (pre +:+ String a "") = false ->
  Re.search (pre +:+ String a rest) = Re.search (String a rest).
Proof.
  induction pre as [|x pre IH]; [reflexivity|].
  destruct pre as [|y pre]; norm_append; cbn [has_digit_pair].
  - rewrite orb_false_r. intros Hxa.
    now rewrite (search_cons x), match_here_none.
  - intros H. apply orb_false_elim in H as [Hxy Hrest].
    specialize (IH Hrest). rewrite <- IH.
    now rewrite (search_cons x), match_here_none.
Qed.

Lemma search_no_pair (s : string) :
  has_digit_pair s = false -> Re.search s = None.
Proof.
  induction s as [|x s IH]; [reflexivity|].
  destruct s as [|y s]; [reflexivity|].
  cbn [has_digit_pair]. intros H. apply orb_false_elim in H as [Hxy Hrest].
  rewrite search_cons, match_here_none by assumption. now apply IH.
Qed.

Lemma leftmost_pair (s : string) :
  has_digit_pair s = true ->
  exists pre a b post,
    s = pre +:+ String a (String b post)
    /\ has_digit_pair (pre +:+ String a "") = false
    /\ isdigit a = true /\ isdigit b = true.
Proof.
  induction s as [|x s IH]; [discriminate|].
  destruct s as [|y s]; [discriminate|].
  cbn [has_digit_pair].
  destruct (isdigit x && isdigit y) eqn:Hxy.
  - intros _. apply andb_true_iff in Hxy as [Hx Hy].
    now exists "", x, y, s.
  - cbn [orb]. intros H. destruct (IH H) as (pre & a & b & post & Hs & Hpre & Ha & Hb).
    exists (String x pre), a, b, post. repeat split; try assumption.
    + norm_append. now rewrite <- Hs.
    + destruct pre as [|z pre]; norm_append.
      * injection Hs as -> _. cbn [has_digit_pair]. now rewrite Hxy.
      * injection Hs as -> _. cbn [has_digit_pair] in *. now rewrite Hxy.
Qed.

(** C3, as the code has it: the match is the leftmost pair of adjacent
    digits of the name.  When two more digits follow it the label is
    "d1d2:d3d4", the four digits taken as they are; when they do not, the
    label is "d1d2:00"; a name without two adjacent digits is returned
    unchanged.  The twelve reading columns map onto the six canonical
    labels, "1400_BMS" to "14:00" and "Manual07" to "07:00". *)
Theorem to_time_label_leftmost_match :
  (forall s, has_digit_pair s = false -> to_time_label s = s)
  /\ (forall pre a b c d post,
        has_digit_pair (pre +:+ String a "") = false ->
        isdigit a = true -> isdigit b = true ->
        isdigit c = true -> isdigit d = true ->
        to_time_label (pre +:+ String a (String b (String c (String d post))))
        = String a (String b (String ":" (String c (String d "")))))
  /\ (forall pre a b post,
        has_digit_pair (pre +:+ String a "") = false ->
        isdigit a = true -> isdigit b = true ->
        starts_with_digits2 post = false ->
        to_time_label (pre +:+ String a (String b post))
        = String a (String b ":00"))
  /\ (forall s, has_digit_pair s = true ->
        exists pre a b post,
          s = pre +:+ String a (String b post)
          /\ has_digit_pair (pre +:+ String a "") = false
          /\ isdigit a = true /\ isdigit b = true)
  /\ to_time_label "1400_BMS" = "14:00"
  /\ to_time_label "Manual07" = "07:00"
  /\ map to_time_label BMS_COLS = TIME_ORDER
  /\ map to_time_label MANUAL_COLS = TIME_ORDER.
Proof.
  split; [|split; [|split; [|split]]].
  - intros s H. unfold to_time_label. now rewrite search_no_pair.
  - intros pre a b c d post Hpre Ha Hb Hc Hd.
    unfold to_time_label. rewrite search_skip by assumption.
    rewrite search_cons, match_here_pair by assumption.
    cbn [Re.digits2]. now rewrite Hc, Hd.
  - intros pre a b post Hpre Ha Hb Hpost.
    unfold to_time_label. rewrite search_skip by assumption.
    rewrite search_cons, match_here_pair by assumption.
    destruct post as [|c [|d post]]; try reflexivity.
    cbn [starts_with_digits2] in Hpost. cbn [Re.digits2]. now rewrite Hpost.
  - exact leftmost_pair.
  - repeat split; reflexivity.
Qed.

Lemma to_time_label_leftmost_match_witness :
  has_digit_pair "Manual0" = false
  /\ to_time_label "Manual0700x" = "07:00"
  /\ to_time_label "Manual07_1400" = "07:00".
Proof.
  destruct to_time_label_leftmost_match as (_ & H4 & H2 & _).
  split; [reflexivity|]. split.
  - apply (H4 "Manual" "0"%char "7"%char "0"%char "0"%char "x"); reflexivity.
  - apply (H2 "Manual" "0"%char "7"%char "_1400"); reflexivity.
Defined.

(** C3 as it is worded fails: the code does not check that the digits are
    an hour and a minute, and a two-digit group that comes first wins over
    a later four-digit group. *)
Lemma to_time_label_not_as_worded :
  to_time_label "9999" = "99:99"
  /\ SpecLabel.time_label "9999" = "99:00"
  /\ to_time_label "Manual07_1400" = "07:00"
  /\ SpecLabel.time_label "Manual07_1400" = "14:00".
Proof. repeat split; reflexivity. Qed.

(** ** The store and the stages of [to_long] *)

Lemma contains_In (xs : list string) (x : string) :
  contains xs x = true <-> In x xs.
Proof.
  unfold contains. rewrite existsb_exists. split.
  - intros (y & Hy & Heq). apply String.eqb_eq in Heq. now subst.
  - intros H. exists x. split; [assumption|apply String.eqb_refl].
Qed.

Lemma contains_lookup (f : DataFrame) (name : string) :
  contains (labels f) name = true <-> is_Some (lookup_col name (columns f)).
Proof.
  unfold labels. induction (columns f) as [|[n c] cols IH].
  - split; [discriminate|intros [? ?]; discriminate].
  - cbn [map fst lookup_col]. unfold contains in *. cbn [existsb].
    rewrite (String.eqb_sym name n).
    destruct (String.eqb n name); [split; eauto|exact IH].
Qed.

Lemma missing_cols_nil (f : DataFrame) :
  missing_cols f = [] <->
  forall c, In c required_id_cols -> contains (labels f) c = true.
Proof.
  unfold missing_cols. split.
  - intros H c Hc. destruct (contains (labels f) c) eqn:E; [reflexivity|].
    assert (In c (List.filter (fun c => negb (contains (labels f) c)) required_id_cols))
      as Hin by (apply filter_In; split; [assumption|now rewrite E]).
    rewrite H in Hin. destruct Hin.
  - intros H. induction required_id_cols as [|c cs IH]; [reflexivity|].
    cbn [List.filter]. rewrite (H c) by now left. cbn [negb].
    apply IH. intros c' Hc'. apply H. now right.
Qed.

Lemma missing_cols_In (f : DataFrame) (c : string) :
  In c (missing_cols f) <-> In c required_id_cols /\ contains (labels f) c = false.
Proof.
  unfold missing_cols. rewrite filter_In, negb_true_iff. reflexivity.
Qed.

Lemma labels_set_col (name : string) (col : Column) (f : DataFrame) :
  contains (labels f) name = true -> labels (set_col name col f) = labels f.
Proof.
  intros H. unfold set_col. rewrite H. unfold labels. cbn [columns].
  rewrite List.map_map. rewrite <- (List.map_id (map fst (columns f))) at 1.
  rewrite List.map_map. apply List.map_ext_in.
  intros [n c] _. cbn [fst]. destruct (String.eqb n name) eqn:E; [|reflexivity].
  apply String.eqb_eq in E. now subst.
Qed.

Lemma lookup_set_col_other (name other : string) (col : Column) (f : DataFrame) :
  contains (labels f) name = true -> other <> name ->
  lookup_col other (columns (set_col name col f)) = lookup_col other (columns f).
Proof.
  intros H Hne. unfold set_col. rewrite H. cbn [columns].
  induction (columns f) as [|[n c] cols IH]; [reflexivity|].
  cbn [map fst lookup_col]. destruct (String.eqb n name) eqn:E.
  - apply String.eqb_eq in E. subst n. cbn [lookup_col].
    apply String.eqb_neq in Hne. rewrite String.eqb_sym in Hne. now rewrite Hne.
  - cbn [lookup_col]. now rewrite IH.
Qed.


Lemma frame_at_valid (st : Store) (r : ref) :
  frame_at st r <> empty_frame -> st !! r = Some (frame_at st r).
Proof.
  unfold frame_at. destruct (st !! r); [reflexivity|]. intros H. now destruct H.
Qed.

Lemma frame_at_alter (g : DataFrame -> DataFrame) (st : Store) (r : ref) :
  frame_at st r <> empty_frame -> frame_at (alter g r st) r = g (frame_at st r).
Proof.
  intros H. apply frame_at_valid in H. unfold frame_at in *.
  rewrite list_lookup_alter_eq, H. reflexivity.
Qed.

Lemma missing_cols_empty_frame : missing_cols empty_frame <> [].
Proof. discriminate. Qed.

Lemma alias_repair_run (df : ref) (st : Store) :
  alias_repair df st
  = let f := frame_at st df in
    if negb (contains (labels f) "Station") && contains (labels f) "Staion"
    then (st ++ [rename_col "Staion" "Station" f], inr (List.length st))
    else if contains (labels f) "Station" && contains (labels f) "Staion"
    then (st ++ [drop_col "Staion" f], inr (List.length st))
    else (st, inr df).
Proof.
  unfold alias_repair, mbind, M_bind, load. cbn zeta.
  destruct (negb _ && _); [reflexivity|]. now destruct (_ && _).
Qed.

Lemma check_required_run (r : ref) (st : Store) :
  check_required r st
  = (st, if is_nil (missing_cols (frame_at st r)) then inr tt
         else inl (MissingColumns (missing_cols (frame_at st r)))).
Proof.
  unfold check_required, mbind, M_bind, load.
  now destruct (is_nil (missing_cols (frame_at st r))).
Qed.

Lemma reshape_spec (f : DataFrame) :
  reshape f
  = (if is_nil (List.filter (contains (labels f)) BMS_COLS)
        && is_nil (List.filter (contains (labels f)) MANUAL_COLS)
     then inl NoReadingColumns
     else if contains (labels f) "Value" then inl MeltValueName
     else inr (melt_rows f (List.filter (contains (labels f)) MANUAL_COLS) "Manual"
               ++ melt_rows f (List.filter (contains (labels f)) BMS_COLS) "BMS")).
Proof.
  unfold reshape, melt. cbn zeta.
  assert (forall s, melt_rows f [] s = []) as Hnil by reflexivity.
  destruct (List.filter (contains (labels f)) BMS_COLS) as [|b bs];
    destruct (List.filter (contains (labels f)) MANUAL_COLS) as [|m ms];
    rewrite ?Hnil; cbn [is_nil andb negb]; [reflexivity|..];
    destruct (contains (labels f) "Value"); try reflexivity;
    cbn [app concat]; now rewrite ?app_nil_r.
Qed.

Lemma reshape_error (f : DataFrame) (e : Error) :
  reshape f = inl e -> e = NoReadingColumns \/ e = MeltValueName.
Proof.
  rewrite reshape_spec. destruct (_ && _); [intros [= <-]; now left|].
  destruct (contains (labels f) "Value"); [intros [= <-]; now right|discriminate].
Qed.

Lemma is_datetime64_error (d : DType) (e : Error) :
  is_datetime64 d = inl e -> e = TypeErrorDtype.
Proof. destruct d; cbn; congruence. Qed.

Section Stages.

Context {ops : PandasOps}.

Lemma parse_dates_run (r : ref) (st : Store) :
  parse_dates r st
  = match lookup_col "Date" (columns (frame_at st r)) with
    | None => (st, inl (KeyErrorLabel "Date"))
    | Some date =>
        match is_datetime64 (dtype date) with
        | inl e => (st, inl e)
        | inr true => (st, inr tt)
        | inr false =>
            (alter (set_col "Date"
                      (mkColumn DDatetime (to_datetime_coerce (cells date)))) r st,
             inr tt)
        end
    end.
Proof.
  unfold parse_dates, getitem, mbind, M_bind, load, lift.
  destruct (lookup_col "Date" (columns (frame_at st r))) as [date|]; [|reflexivity].
  unfold mret, M_ret. now destruct (is_datetime64 (dtype date)) as [e|[|]].
Qed.

Lemma to_long_run (df : ref) (st : Store) :
  to_long df st
  = match alias_repair df st with
    | (st1, inr df1) =>
        if is_nil (missing_cols (frame_at st1 df1))
        then match parse_dates df1 st1 with
             | (st2, inr _) =>
                 (st2, match reshape (frame_at st2 df1) with
                       | inl e => inl e
                       | inr out => inr (validate out)
                       end)
             | (st2, inl e) => (st2, inl e)
             end
        else (st1, inl (MissingColumns (missing_cols (frame_at st1 df1))))
    | (st1, inl e) => (st1, inl e)
    end.
Proof.
  unfold to_long. unfold mbind at 1, M_bind at 1.
  destruct (alias_repair df st) as [st1 [e|df1]]; [reflexivity|].
  unfold mbind at 1, M_bind at 1. rewrite check_required_run.
  destruct (is_nil (missing_cols (frame_at st1 df1))); [|reflexivity].
  unfold mbind at 1, M_bind at 1.
  destruct (parse_dates df1 st1) as [st2 [e|[]]]; [reflexivity|].
  unfold mbind, M_bind, load.
  now destruct (reshape (frame_at st2 df1)).
Qed.

End Stages.

(** ** The validator, lines 69-75 *)

Section Validator.

Context {ops : PandasOps}.

Lemma assign_time_label_map {V} (rows : list (Row V unit)) :
  assign_time_label rows = map labelled rows.
Proof. unfold assign_time_label. cbn zeta. now rewrite List.map_map. Qed.

Lemma validate_In (rows : list (Row Cell unit)) (r : LongRecord) :
  In r (validate rows) <->
  exists m, In m rows
    /\ r = labelled (with_value to_numeric m)
    /\ not_missing (with_value to_numeric m) = true
    /\ in_range (with_value to_numeric m) = true
    /\ not_blank r = true.
Proof.
  unfold validate. cbn zeta. rewrite assign_time_label_map, filter_In, in_map_iff.
  split.
  - intros [(x & <- & Hx) Hblank].
    apply filter_In in Hx as [Hx Hrange]. apply filter_In in Hx as [Hx Hmiss].
    apply in_map_iff in Hx as (m & <- & Hm). now exists m.
  - intros (m & Hm & -> & Hmiss & Hrange & Hblank).
    split; [|assumption]. exists (with_value to_numeric m). split; [reflexivity|].
    apply filter_In. split; [|assumption]. apply filter_In. split; [|assumption].
    now apply in_map.
Qed.

Lemma to_long_inv (df : ref) (st st' : Store) (out : list LongRecord) :
  to_long df st = (st', inr out) ->
  exists st1 df1 rows,
    alias_repair df st = (st1, inr df1)
    /\ missing_cols (frame_at st1 df1) = []
    /\ parse_dates df1 st1 = (st', inr tt)
    /\ reshape (frame_at st' df1) = inr rows
    /\ out = validate rows.
Proof.
  rewrite to_long_run.
  destruct (alias_repair df st) as [st1 [e|df1]]; [discriminate|].
  destruct (missing_cols (frame_at st1 df1)) eqn:Hmiss; [|discriminate].
  cbn [is_nil].
  destruct (parse_dates df1 st1) as [st2 [e|[]]] eqn:Hpd; [discriminate|].
  destruct (reshape (frame_at st2 df1)) as [e|rows] eqn:Hre; [discriminate|].
  intros [= <- <-]. now exists st1, df1, rows.
Qed.

(** C1: when [to_long] returns, every record of the output has a value
    that is a number (not [NaN]) with [15 <= Value <= 50]; so no record
    has the value 5 or the value 51. *)
Theorem to_long_values_in_range (df : ref) (st st' : Store) (out : list LongRecord) :
  to_long df st = (st', inr out) ->
  Forall (fun r => is_nan (Value r) = false
                   /\ (15 <=? Value r)%float = true
                   /\ (Value r <=? 50)%float = true) out
  /\ (forall r, In r out -> Value r <> 5%float /\ Value r <> 51%float).
Proof.
  intros H. apply to_long_inv in H as (st1 & df1 & rows & _ & _ & _ & _ & ->).
  assert (forall r, In r (validate rows) ->
            is_nan (Value r) = false
            /\ (15 <=? Value r)%float = true
            /\ (Value r <=? 50)%float = true) as Hall.
  { intros r Hr. apply validate_In in Hr as (m & _ & -> & Hmiss & Hrange & _).
    unfold not_missing in Hmiss. unfold in_range in Hrange.
    apply andb_true_iff in Hmiss as [Hnan _]. apply negb_true_iff in Hnan.
    apply andb_true_iff in Hrange as [Hlo Hhi].
    cbn [labelled with_label with_value Value] in *. auto. }
  split; [now apply List.Forall_forall|].
  intros r Hr. destruct (Hall r Hr) as (_ & Hlo & Hhi).
  split; intros Heq; rewrite Heq in *; vm_compute in Hlo, Hhi; discriminate.
Qed.

End Validator.

Lemma to_long_values_in_range_witness :
  snd (@to_long Sample.ops 0 [Sample.messy]) = inr [Sample.scenario_record (CStr " ")]
  /\ Forall (fun r : LongRecord =>
               is_nan (Value r) = false
               /\ (15 <=? Value r)%float = true
               /\ (Value r <=? 50)%float = true)
            [Sample.scenario_record (CStr " ")]
  /\ (forall r, In r [Sample.scenario_record (CStr " ")] ->
        Value r <> 5%float /\ Value r <> 51%float).
Proof.
  split; [vm_compute; reflexivity|].
  apply (@to_long_values_in_range Sample.ops 0 [Sample.messy]
           (fst (@to_long Sample.ops 0 [Sample.messy]))).
  vm_compute; reflexivity.
Defined.

(** ** The alias column, lines 44-47 *)

Lemma lookup_drop_col (name other : string) (f : DataFrame) :
  other <> name ->
  lookup_col other (columns (drop_col name f)) = lookup_col other (columns f).
Proof.
  intros Hne. unfold drop_col. cbn [columns].
  induction (columns f) as [|[n c] cols IH]; [reflexivity|].
  cbn [List.filter fst lookup_col]. destruct (String.eqb n name) eqn:E; cbn [negb].
  - apply String.eqb_eq in E. subst n.
    apply String.eqb_neq in Hne. rewrite String.eqb_sym in Hne. now rewrite Hne.
  - cbn [lookup_col]. now rewrite IH.
Qed.

Lemma labels_drop_col (name : string) (f : DataFrame) :
  contains (labels (drop_col name f)) name = false.
Proof.
  destruct (contains _ _) eqn:E; [|reflexivity].
  apply contains_In in E. unfold labels, drop_col in E. cbn [columns] in E.
  apply in_map_iff in E as ([n c] & Hn & Hin). cbn [fst] in Hn. subst n.
  apply filter_In in Hin as [_ Hin]. cbn [fst] in Hin.
  now rewrite String.eqb_refl in Hin.
Qed.

Lemma lookup_rename_col_other (old new other : string) (f : DataFrame) :
  other <> old -> other <> new ->
  lookup_col other (columns (rename_col old new f)) = lookup_col other (columns f).
Proof.
  intros Hold Hnew. unfold rename_col. cbn [columns].
  apply String.eqb_neq in Hold, Hnew. rewrite String.eqb_sym in Hold, Hnew.
  induction (columns f) as [|[n c] cols IH]; [reflexivity|].
  cbn [map fst snd lookup_col]. destruct (String.eqb n old) eqn:E.
  - apply String.eqb_eq in E. subst n. now rewrite Hnew, Hold.
  - now rewrite IH.
Qed.

Lemma lookup_rename_col_new (old new : string) (f : DataFrame) :
  contains (labels f) new = false ->
  lookup_col new (columns (rename_col old new f)) = lookup_col old (columns f).
Proof.
  unfold rename_col, labels, contains. cbn [columns].
  induction (columns f) as [|[n c] cols IH]; [reflexivity|].
  cbn [map fst snd lookup_col existsb]. intros H.
  apply orb_false_elim in H as [Hn Hrest]. rewrite String.eqb_sym in Hn.
  destruct (String.eqb n old) eqn:E.
  - now rewrite String.eqb_refl.
  - rewrite Hn. now apply IH.
Qed.

Lemma labels_rename_col (old new : string) (f : DataFrame) :
  old <> new -> contains (labels (rename_col old new f)) old = false.
Proof.
  intros Hne. destruct (contains _ _) eqn:E; [|reflexivity].
  apply contains_In in E. unfold labels, rename_col in E. cbn [columns] in E.
  rewrite List.map_map in E. apply in_map_iff in E as ([n c] & Hn & _).
  cbn [fst] in Hn. destruct (String.eqb n old) eqn:E'.
  - now subst new.
  - subst n. now rewrite String.eqb_refl in E'.
Qed.

(** C4: when the alias column [Staion] is present, the frame that
    [to_long] goes on with has no [Staion] column, and every column under
    another label is as in the input.  With [Station] also present its
    values are the input's [Station] values, whatever [Staion] held; with
    [Station] absent, the [Station] column is the input's [Staion] column
    under its new label.  The frame is a new object: the caller's frame is
    left as it was. *)
Theorem alias_repair_station (df : ref) (st : Store) (f : DataFrame) :
  st !! df = Some f ->
  contains (labels f) "Staion" = true ->
  exists st1 df1 f1,
    alias_repair df st = (st1, inr df1)
    /\ st1 !! df1 = Some f1
    /\ st1 !! df = Some f
    /\ contains (labels f1) "Staion" = false
    /\ nrows f1 = nrows f
    /\ (forall n, n <> "Station" -> n <> "Staion" ->
          lookup_col n (columns f1) = lookup_col n (columns f))
    /\ lookup_col "Station" (columns f1)
       = (if contains (labels f) "Station"
          then lookup_col "Station" (columns f)
          else lookup_col "Staion" (columns f)).
Proof.
  intros Hdf Halias. rewrite alias_repair_run. cbn zeta.
  unfold frame_at. rewrite Hdf. cbn [default from_option id]. rewrite Halias.
  destruct (contains (labels f) "Station") eqn:Hst; cbn [negb andb].
  - exists (st ++ [drop_col "Staion" f]), (List.length st), (drop_col "Staion" f).
    split; [reflexivity|]. split; [now apply list_lookup_middle|].
    split; [now apply lookup_app_l_Some|].
    split; [apply labels_drop_col|]. split; [reflexivity|].
    split; [intros n _ Hn; now apply lookup_drop_col|].
    now apply lookup_drop_col.
  - exists (st ++ [rename_col "Staion" "Station" f]), (List.length st),
           (rename_col "Staion" "Station" f).
    split; [reflexivity|]. split; [now apply list_lookup_middle|].
    split; [now apply lookup_app_l_Some|].
    split; [now apply labels_rename_col|]. split; [reflexivity|].
    split; [intros n Hn1 Hn2; now apply lookup_rename_col_other|].
    now apply lookup_rename_col_new.
Qed.

Lemma alias_repair_station_witness :
  lookup_col "Station" (columns Sample.both_stations)
  = Some (Sample.text_col ["A"; "B"])
  /\ lookup_col "Staion" (columns Sample.both_stations)
     = Some (Sample.text_col ["X"; "Y"])
  /\ exists st1 df1 f1,
       alias_repair 0 [Sample.both_stations] = (st1, inr df1)
       /\ st1 !! df1 = Some f1
       /\ st1 !! 0 = Some Sample.both_stations
       /\ contains (labels f1) "Staion" = false
       /\ nrows f1 = 2
       /\ (forall n, n <> "Station" -> n <> "Staion" ->
             lookup_col n (columns f1) = lookup_col n (columns Sample.both_stations))
       /\ lookup_col "Station" (columns f1) = Some (Sample.text_col ["A"; "B"]).
Proof.
  split; [reflexivity|]. split; [reflexivity|].
  apply (alias_repair_station 0 [Sample.both_stations] Sample.both_stations);
    reflexivity.
Defined.

(** ** The identifier columns, lines 48-51 *)

Lemma append_assoc (a b c : string) : (a +:+ b) +:+ c = a +:+ b +:+ c.
Proof. induction a as [|x a IH]; [reflexivity|]. norm_append. now rewrite IH. Qed.

Lemma append_nil_r (a : string) : a +:+ "" = a.
Proof. induction a as [|x a IH]; [reflexivity|]. norm_append. now rewrite IH. Qed.

Lemma concat_names (c : string) (xs : list string) :
  In c xs ->
  exists pre post,
    String.concat ", " (map (fun x => "'" +:+ x +:+ "'") xs)
    = pre +:+ ("'" +:+ c +:+ "'") +:+ post.
Proof.
  induction xs as [|x xs IH]; [intros []|].
  intros [->|Hin].
  - destruct xs as [|y xs].
    + exists "", "". cbn [map String.concat]. now rewrite append_nil_r.
    + exists "". eexists. cbn [map String.concat]. reflexivity.
  - destruct (IH Hin) as (pre & post & Heq).
    destruct xs as [|y xs]; [destruct Hin|].
    exists (("'" +:+ x +:+ "'") +:+ ", " +:+ pre), post.
    cbn [map String.concat] in *. rewrite Heq. now rewrite !append_assoc.
Qed.

Lemma message_names (c : string) (missing : list string) :
  In c missing ->
  exists pre post,
    message (MissingColumns missing) = pre +:+ ("'" +:+ c +:+ "'") +:+ post.
Proof.
  intros Hin. destruct (concat_names c missing Hin) as (pre & post & Heq).
  exists ("Missing required column(s): [" +:+ pre), (post +:+ "].").
  unfold message, repr_list. rewrite Heq. now rewrite !append_assoc.
Qed.

Section IdentifierColumns.

Context {ops : PandasOps}.

(** C5: let [f1] be the frame after the alias repair.  When [f1] lacks
    one of [Date], [Station], [Common Location], [Location], [to_long]
    raises the missing-columns error, nothing is returned, the error
    lists exactly the required labels that [f1] lacks, and its message
    quotes each of them.  When [f1] has all four, no missing-columns
    error is raised. *)
Theorem to_long_missing_columns (df : ref) (st st1 : Store) (df1 : ref) :
  alias_repair df st = (st1, inr df1) ->
  (missing_cols (frame_at st1 df1) <> [] ->
     to_long df st = (st1, inl (MissingColumns (missing_cols (frame_at st1 df1)))))
  /\ (forall c, In c (missing_cols (frame_at st1 df1)) <->
        In c required_id_cols /\ ~ In c (labels (frame_at st1 df1)))
  /\ (forall c, In c (missing_cols (frame_at st1 df1)) ->
        exists pre post,
          message (MissingColumns (missing_cols (frame_at st1 df1)))
          = pre +:+ ("'" +:+ c +:+ "'") +:+ post)
  /\ (missing_cols (frame_at st1 df1) = [] ->
        forall st' m, to_long df st <> (st', inl (MissingColumns m))).
Proof.
  intros Hrep. split; [|split; [|split]].
  - intros Hmiss. rewrite to_long_run, Hrep.
    destruct (missing_cols (frame_at st1 df1)); [now destruct Hmiss|reflexivity].
  - intros c. rewrite missing_cols_In.
    split; intros [Hreq Habs]; (split; [assumption|]).
    + rewrite <- contains_In. now rewrite Habs.
    + apply not_true_is_false. now rewrite contains_In.
  - intros c. apply message_names.
  - intros Hmiss st' m. rewrite to_long_run, Hrep, Hmiss. cbn [is_nil].
    rewrite parse_dates_run.
    destruct (lookup_col "Date" (columns (frame_at st1 df1))) as [date|];
      [|discriminate].
    destruct (is_datetime64 (dtype date)) as [e|[|]] eqn:Ed.
    + apply is_datetime64_error in Ed as ->. discriminate.
    + destruct (reshape (frame_at st1 df1)) as [e|rows] eqn:E; [|discriminate].
      destruct (reshape_error _ _ E) as [-> | ->]; discriminate.
    + destruct (reshape (frame_at _ df1)) as [e|rows] eqn:E; [|discriminate].
      destruct (reshape_error _ _ E) as [-> | ->]; discriminate.
Qed.

End IdentifierColumns.

Lemma to_long_missing_columns_witness :
  alias_repair 0 [Sample.no_location] = ([Sample.no_location], inr 0)
  /\ @to_long Sample.ops 0 [Sample.no_location]
     = ([Sample.no_location], inl (MissingColumns ["Location"]))
  /\ message (MissingColumns ["Location"])
     = "Missing required column(s): ['Location']."
  /\ message (MissingColumns ["Date"; "Common Location"])
     = "Missing required column(s): ['Date', 'Common Location'].".
Proof.
  split; [reflexivity|]. split; [|split; reflexivity].
  apply (@to_long_missing_columns Sample.ops 0 [Sample.no_location]
           [Sample.no_location] 0); [reflexivity|discriminate].
Defined.

(** ** The reshaper, lines 54-68 *)

Lemma melt_In (f : DataFrame) (value_vars : list string) (source : string)
    (r : Row Cell unit) :
  In r (melt_rows f value_vars source) <->
  exists v i, In v value_vars /\ i < nrows f
    /\ r = mkRow (cell f "Date" i) (cell f "Station" i) (cell f "Common Location" i)
                 (cell f "Location" i) v (cell f v i) source tt.
Proof.
  unfold melt_rows. rewrite in_flat_map. split.
  - intros (v & Hv & Hr). apply in_map_iff in Hr as (i & <- & Hi).
    apply in_seq in Hi. exists v, i. repeat split; [assumption|lia].
  - intros (v & i & Hv & Hi & ->). exists v. split; [assumption|].
    apply in_map_iff. exists i. split; [reflexivity|]. apply in_seq. lia.
Qed.

Lemma reshape_rows (f : DataFrame) (rows : list (Row Cell unit)) :
  reshape f = inr rows ->
  rows = melt_rows f (List.filter (contains (labels f)) MANUAL_COLS) "Manual"
         ++ melt_rows f (List.filter (contains (labels f)) BMS_COLS) "BMS".
Proof.
  rewrite reshape_spec. destruct (_ && _); [discriminate|].
  destruct (contains (labels f) "Value"); [discriminate|]. now intros [= <-].
Qed.

Lemma reshape_In (f : DataFrame) (rows : list (Row Cell unit)) (r : Row Cell unit) :
  reshape f = inr rows ->
  In r rows <->
  In r (melt_rows f (List.filter (contains (labels f)) MANUAL_COLS) "Manual")
  \/ In r (melt_rows f (List.filter (contains (labels f)) BMS_COLS) "BMS").
Proof.
  intros H. apply reshape_rows in H as ->. apply in_app_iff.
Qed.

Lemma reading_cols_present (f : DataFrame) (v : string) :
  In v (BMS_COLS ++ MANUAL_COLS) -> contains (labels f) v = true ->
  is_nil (List.filter (contains (labels f)) BMS_COLS)
  && is_nil (List.filter (contains (labels f)) MANUAL_COLS) = false.
Proof.
  intros Hv Hc.
  destruct (is_nil (List.filter (contains (labels f)) BMS_COLS)
            && is_nil (List.filter (contains (labels f)) MANUAL_COLS)) eqn:E;
    [|reflexivity].
  apply andb_true_iff in E as [Eb Em]. apply in_app_iff in Hv as [Hv|Hv].
  - assert (In v (List.filter (contains (labels f)) BMS_COLS)) as Hin
      by now apply filter_In.
    destruct (List.filter _ BMS_COLS); [destruct Hin|discriminate].
  - assert (In v (List.filter (contains (labels f)) MANUAL_COLS)) as Hin
      by now apply filter_In.
    destruct (List.filter _ MANUAL_COLS); [destruct Hin|discriminate].
Qed.

Lemma reshape_ok (f : DataFrame) (v : string) :
  In v (BMS_COLS ++ MANUAL_COLS) -> contains (labels f) v = true ->
  contains (labels f) "Value" = false ->
  exists rows, reshape f = inr rows.
Proof.
  intros Hv Hc Hval. rewrite reshape_spec, (reading_cols_present f v Hv Hc), Hval.
  eauto.
Qed.

Lemma reading_label (v : string) :
  In v (BMS_COLS ++ MANUAL_COLS) ->
  Categorical TIME_ORDER (to_time_label v) = Some (to_time_label v)
  /\ In (to_time_label v) TIME_ORDER.
Proof.
  cbn [BMS_COLS MANUAL_COLS app In].
  intros H; repeat (destruct H as [<-|H]; [split; vm_compute; tauto|]); destruct H.
Qed.

(** ** Row-level filtering *)

Section RowPolicy.

Context {ops : PandasOps}.

Lemma labels_nonempty_frame (f : DataFrame) (name : string) (c : Column) :
  lookup_col name (columns f) = Some c -> f <> empty_frame.
Proof. intros H ->. discriminate H. Qed.

(** What line 53 leaves of the frame when lines 52-53 return. *)
Lemma parse_dates_inv (st1 st2 : Store) (df1 : ref) :
  parse_dates df1 st1 = (st2, inr tt) ->
  labels (frame_at st2 df1) = labels (frame_at st1 df1)
  /\ nrows (frame_at st2 df1) = nrows (frame_at st1 df1)
  /\ forall n, n <> "Date" ->
       lookup_col n (columns (frame_at st2 df1))
       = lookup_col n (columns (frame_at st1 df1)).
Proof.
  rewrite parse_dates_run.
  destruct (lookup_col "Date" (columns (frame_at st1 df1))) as [date|] eqn:Hd;
    [|discriminate].
  destruct (is_datetime64 (dtype date)) as [e|[|]]; [discriminate|..];
    intros [= <-]; [now repeat split|].
  assert (contains (labels (frame_at st1 df1)) "Date" = true) as Hc
    by (apply contains_lookup; now exists date).
  rewrite frame_at_alter by (now apply (labels_nonempty_frame _ "Date" date)).
  split; [now apply labels_set_col|]. split; [reflexivity|].
  intros n Hn. now apply lookup_set_col_other.
Qed.

Lemma parse_dates_returns (st1 : Store) (df1 : ref) (date : Column) :
  lookup_col "Date" (columns (frame_at st1 df1)) = Some date ->
  numpy_dtype (dtype date) = true ->
  exists st2, parse_dates df1 st1 = (st2, inr tt).
Proof.
  intros Hd Hn. rewrite parse_dates_run, Hd.
  destruct (dtype date); try discriminate Hn; cbn [is_datetime64]; eauto.
Qed.

(** [to_long] returns on a frame that has, after the alias repair, the
    four identifier columns, a [Date] column of a NumPy dtype, a reading
    column and no column labelled [Value]. *)
Lemma to_long_returns (df : ref) (st st1 : Store) (df1 : ref) (date : Column)
    (v : string) :
  alias_repair df st = (st1, inr df1) ->
  missing_cols (frame_at st1 df1) = [] ->
  lookup_col "Date" (columns (frame_at st1 df1)) = Some date ->
  numpy_dtype (dtype date) = true ->
  contains (labels (frame_at st1 df1)) "Value" = false ->
  In v (BMS_COLS ++ MANUAL_COLS) ->
  contains (labels (frame_at st1 df1)) v = true ->
  exists st' rows,
    to_long df st = (st', inr (validate rows))
    /\ parse_dates df1 st1 = (st', inr tt)
    /\ reshape (frame_at st' df1) = inr rows.
Proof.
  intros Hrep Hmiss Hd Hn Hval Hv Hc.
  destruct (parse_dates_returns st1 df1 date Hd Hn) as [st2 Hpd].
  destruct (parse_dates_inv st1 st2 df1 Hpd) as (Hlab & _ & _).
  destruct (reshape_ok (frame_at st2 df1) v Hv) as [rows Hre];
    [now rewrite Hlab..|].
  exists st2, rows. split; [|now split].
  now rewrite to_long_run, Hrep, Hmiss, Hpd, Hre.
Qed.


(** C6 at reconciled frames on which [to_long] does not return.  With a
    [Date] column of the text dtype, one of its dates unreadable, or of
    the datetime dtype with a time zone, line 52 raises [TypeError]; the
    same texts in a column of dtype object are coerced and [to_long]
    returns.  With a column labelled [Value], [melt] raises
    [ValueError]. *)
Theorem to_long_raises_on_extension_dates :
  (missing_cols Cases.str_dates = []
   /\ contains (labels Cases.str_dates) "1400_BMS" = true
   /\ to_long 0 [Cases.str_dates] = ([Cases.str_dates], inl TypeErrorDtype))
  /\ (missing_cols Cases.tz_dates = []
      /\ contains (labels Cases.tz_dates) "1400_BMS" = true
      /\ to_long 0 [Cases.tz_dates] = ([Cases.tz_dates], inl TypeErrorDtype))
  /\ (missing_cols Cases.value_column = []
      /\ contains (labels Cases.value_column) "1400_BMS" = true
      /\ to_long 0 [Cases.value_column] = ([Cases.value_column], inl MeltValueName))
  /\ (exists st' out, to_long 0 [Cases.object_dates] = (st', inr out)).
Proof.
  split; [|split; [|split]]; try (repeat split; reflexivity).
  destruct (to_long_returns 0 [Cases.object_dates] [Cases.object_dates] 0
              (Sample.text_col ["2024-01-01"; "not a date"]) "1400_BMS")
    as (st' & rows & Hrun & _); try reflexivity.
  - cbn. tauto.
  - now exists st', (validate rows).
Qed.

(** C10: a row passes whatever its [Common Location] cell holds, blank
    or missing included.  Let [f] be the frame [to_long] worked on, as it
    is when [to_long] returns.  For a reading column [v] of [f] and an
    index [i], if the value is a number in [15, 50], the date is not
    missing and neither [Station] nor [Location] is blank, the record of
    that row and column is in the output, with its [Common Location]
    cell as it is. *)
Theorem common_location_not_filtered (df : ref) (st st' st1 : Store) (df1 : ref)
    (out : list LongRecord) (v source : string) (i : nat) :
  to_long df st = (st', inr out) ->
  alias_repair df st = (st1, inr df1) ->
  (In v MANUAL_COLS /\ source = "Manual" \/ In v BMS_COLS /\ source = "BMS") ->
  contains (labels (frame_at st' df1)) v = true ->
  i < nrows (frame_at st' df1) ->
  is_nan (to_numeric (cell (frame_at st' df1) v i)) = false ->
  (15 <=? to_numeric (cell (frame_at st' df1) v i))%float = true ->
  (to_numeric (cell (frame_at st' df1) v i) <=? 50)%float = true ->
  isna (cell (frame_at st' df1) "Date" i) = false ->
  strip (astype_str (cell (frame_at st' df1) "Station" i)) <> "" ->
  strip (astype_str (cell (frame_at st' df1) "Location" i)) <> "" ->
  In (mkRow (cell (frame_at st' df1) "Date" i)
            (cell (frame_at st' df1) "Station" i)
            (cell (frame_at st' df1) "Common Location" i)
            (cell (frame_at st' df1) "Location" i)
            v (to_numeric (cell (frame_at st' df1) v i)) source
            (Some (to_time_label v)))
     out.
Proof.
  intros Hrun Hrep Hv Hc Hi Hnan Hlo Hhi Hdate Hst Hloc.
  apply to_long_inv in Hrun as (st1' & df1' & rows & Hrep' & _ & _ & Hre & ->).
  rewrite Hrep in Hrep'. injection Hrep' as <- <-.
  set (f := frame_at st' df1) in *.
  apply validate_In.
  exists (mkRow (cell f "Date" i) (cell f "Station" i) (cell f "Common Location" i)
                (cell f "Location" i) v (cell f v i) source tt).
  assert (In v (BMS_COLS ++ MANUAL_COLS)) as Hv'
    by (apply in_app_iff; tauto).
  destruct (reading_label v Hv') as [Hcat _].
  split; [|split; [|split; [|split]]].
  - apply (reshape_In f rows _ Hre).
    destruct Hv as [[Hv ->]|[Hv ->]]; [left|right];
      apply melt_In; exists v, i; (split; [now apply filter_In|now split]).
  - unfold labelled, with_label, with_value. cbn. now rewrite Hcat.
  - unfold not_missing, with_value. cbn. now rewrite Hnan, Hdate.
  - unfold in_range, with_value. cbn. now rewrite Hlo, Hhi.
  - unfold not_blank. cbn.
    apply String.eqb_neq in Hst, Hloc. now rewrite Hst, Hloc.
Qed.

End RowPolicy.


Lemma common_location_not_filtered_witness :
  strip (@astype_str Sample.ops (cell Sample.messy "Common Location" 0)) = ""
  /\ In (Sample.scenario_record (CStr " ")) [Sample.scenario_record (CStr " ")].
Proof.
  split; [reflexivity|].
  apply (@common_location_not_filtered Sample.ops 0 [Sample.messy]
           (fst (@to_long Sample.ops 0 [Sample.messy])) [Sample.messy] 0
           [Sample.scenario_record (CStr " ")] "1400_BMS" "BMS" 0);
    try (vm_compute; reflexivity).
  - right. split; [|reflexivity]. vm_compute. tauto.
  - vm_compute. lia.
  - vm_compute. discriminate.
  - vm_compute. discriminate.
Defined.

(** ** Time labels in the output, lines 72-73 *)

Section TimeLabels.

Context {ops : PandasOps}.


End TimeLabels.


(** ** The end-to-end scenario *)

(** C2, as the code has it: the one-row table with [Date] 2024-01-01,
    [Station] "A", [Location] "Platform1", [1400_BMS] 26.5, no manual
    column, and a [Common Location] column holding anything, gives exactly
    one record, from the automated family (whose [Source] text is "BMS"),
    with the label "14:00" and the value 26.5.  The date is a timestamp
    already, or a text that [to_datetime] reads as that day. *)
Theorem to_long_scenario {ops : PandasOps} (common : Column) :
  snd (to_long 0 [Sample.scenario (Sample.time_col [Sample.jan1]) common])
  = inr [Sample.scenario_record (nth 0 (cells common) (CNum nan))]
  /\ (to_datetime_coerce [CStr "2024-01-01"] = [CTime Sample.jan1] ->
      snd (to_long 0 [Sample.scenario (Sample.text_col ["2024-01-01"]) common])
      = inr [Sample.scenario_record (nth 0 (cells common) (CNum nan))]).
Proof.
  split.
  - vm_compute. reflexivity.
  - intros H. vm_compute in H. vm_compute. rewrite H. reflexivity.
Qed.

Lemma to_long_scenario_witness :
  @to_datetime_coerce Sample.ops [CStr "2024-01-01"] = [CTime Sample.jan1]
  /\ snd (@to_long Sample.ops 0
            [Sample.scenario (Sample.text_col ["2024-01-01"]) (Sample.text_col [""])])
     = inr [Sample.scenario_record (CStr "")].
Proof.
  split; [reflexivity|].
  apply (proj2 (@to_long_scenario Sample.ops (Sample.text_col [""]))).
  reflexivity.
Defined.

(** C2 as it is worded fails: with the four columns it lists and no
    [Common Location] column, [to_long] raises the missing-columns error
    and returns no record. *)
Lemma to_long_scenario_as_worded :
  @to_long Sample.ops 0 [Sample.scenario_as_worded]
  = ([Sample.scenario_as_worded], inl (MissingColumns ["Common Location"])).
Proof. reflexivity. Qed.

(** ** The caller's frame *)

Section CallerFrame.

Context {ops : PandasOps}.

Lemma fst_to_long (df : ref) (st : Store) :
  fst (to_long df st)
  = match alias_repair df st with
    | (st1, inr df1) =>
        if is_nil (missing_cols (frame_at st1 df1))
        then fst (parse_dates df1 st1)
        else st1
    | (st1, inl _) => st1
    end.
Proof.
  rewrite to_long_run.
  destruct (alias_repair df st) as [st1 [e|df1]]; [reflexivity|].
  destruct (is_nil _); [|reflexivity].
  now destruct (parse_dates df1 st1) as [st2 [e|u]].
Qed.

(** What [to_long] leaves behind the caller's reference: the frame as it
    was when the alias branch ran, when a required column is missing, when
    [Date] is a datetime column already or when line 52 raises; otherwise
    the frame with its [Date] column replaced by the parsed dates. *)
Lemma to_long_caller_frame (df : ref) (st : Store) (f : DataFrame) :
  st !! df = Some f ->
  fst (to_long df st) !! df
  = Some (if contains (labels f) "Staion" then f
          else if is_nil (missing_cols f)
          then match lookup_col "Date" (columns f) with
               | Some date =>
                   match is_datetime64 (dtype date) with
                   | inr false =>
                       set_col "Date"
                         (mkColumn DDatetime (to_datetime_coerce (cells date))) f
                   | _ => f
                   end
               | None => f
               end
          else f).
Proof.
  intros Hdf. assert (frame_at st df = f) as Hf by (unfold frame_at; now rewrite Hdf).
  assert (df <> List.length st) as Hne
    by (apply lookup_lt_Some in Hdf; lia).
  rewrite fst_to_long, alias_repair_run. cbn zeta. rewrite Hf.
  destruct (contains (labels f) "Staion") eqn:Halias.
  - assert (forall x, (st ++ [x]) !! df = Some f /\
                      fst (parse_dates (List.length st) (st ++ [x])) !! df = Some f)
      as Hnew.
    { intros x. split; [now apply lookup_app_l_Some|].
      rewrite parse_dates_run. destruct (lookup_col _ _) as [date|];
        [|now apply lookup_app_l_Some].
      destruct (is_datetime64 _) as [e|[|]]; cbn [fst];
        [now apply lookup_app_l_Some..|].
      rewrite list_lookup_alter_ne by congruence. now apply lookup_app_l_Some. }
    destruct (contains (labels f) "Station"); cbn [negb andb];
      destruct (is_nil _); apply Hnew.
  - rewrite !andb_false_r, Hf.
    destruct (is_nil (missing_cols f)); [|assumption].
    rewrite parse_dates_run, Hf.
    destruct (lookup_col "Date" (columns f)) as [date|]; [|assumption].
    destruct (is_datetime64 (dtype date)) as [e|[|]]; cbn [fst]; [assumption..|].
    now rewrite list_lookup_alter_eq, Hdf.
Qed.

(** C8 at a frame with a text [Date] column and no alias column: after
    the call the caller's frame holds the parsed dates, in a datetime
    column, where it held the texts. *)
Theorem to_long_assigns_into_caller :
  lookup_col "Date" (columns (frame_at [Sample.text_dates] 0))
  = Some (mkColumn DObject [CStr "2024-01-01"])
  /\ lookup_col "Date" (columns (frame_at (fst (to_long 0 [Sample.text_dates])) 0))
     = Some (mkColumn DDatetime (to_datetime_coerce [CStr "2024-01-01"])).
Proof. split; vm_compute; reflexivity. Qed.

End CallerFrame.

(** ** The loader, lines 11-28 *)

Section LoaderProperties.

Context {File : Type}.
Variable read_csv :
  File -> string -> option (list string) -> ErrorsPolicy
  -> File * (Exception + DataFrame).
Variable object_selects_str : bool.
Variable file : File.
Variable parse_dates : option (list string).

Hypothesis by_path : rereadable read_csv.

Local Abbreviation strict_fails := (strict_fails read_csv file parse_dates).

Lemma read_csv_path (enc : string) (policy : ErrorsPolicy) :
  read_csv file enc parse_dates policy
  = (file, snd (read_csv file enc parse_dates policy)).
Proof.
  pose proof (by_path file enc parse_dates policy) as H.
  destruct (read_csv file enc parse_dates policy) as [f r]. cbn [fst snd] in *.
  now subst f.
Qed.

Lemma try_encodings_first (pre : list string) (enc : string) (post : list string)
    (df : DataFrame) (last : option Exception) :
  (forall e, In e pre -> strict_fails e) ->
  snd (read_csv file enc parse_dates Strict) = inr df ->
  fst (try_encodings read_csv file parse_dates (pre ++ enc :: post) last) = (file, Some df).
Proof.
  revert last. induction pre as [|p pre IH]; intros last Hpre Henc.
  - cbn [app try_encodings].
    now rewrite read_csv_path, Henc.
  - cbn [app try_encodings]. rewrite read_csv_path.
    destruct (Hpre p) as [x ->]; [now left|].
    apply IH; [|assumption]. intros e He. apply Hpre. now right.
Qed.

Lemma try_encodings_none (encs : list string) (last : option Exception) :
  snd (fst (try_encodings read_csv file parse_dates encs last)) = None ->
  forall e, In e encs -> strict_fails e.
Proof.
  revert last. induction encs as [|enc encs IH]; intros last H e He; [destruct He|].
  cbn [try_encodings] in H. rewrite read_csv_path in H.
  destruct (snd (read_csv file enc parse_dates Strict)) as [x|df] eqn:E;
    [|discriminate].
  destruct He as [<-|He]; [now exists x|]. now apply (IH (Some x)).
Qed.

Lemma try_encodings_last (encs : list string) (enc : string)
    (last : option Exception) (x : Exception) :
  (forall e, In e encs -> strict_fails e) ->
  snd (read_csv file enc parse_dates Strict) = inl x ->
  try_encodings read_csv file parse_dates (encs ++ [enc]) last = (file, None, Some x).
Proof.
  revert last. induction encs as [|p encs IH]; intros last Hall Henc.
  - cbn [app try_encodings]. now rewrite read_csv_path, Henc.
  - cbn [app try_encodings]. rewrite read_csv_path.
    destruct (Hall p) as [y ->]; [now left|].
    apply IH; [|assumption]. intros e He. apply Hall. now right.
Qed.

Lemma try_encodings_file (encs : list string) (last : option Exception) :
  fst (fst (try_encodings read_csv file parse_dates encs last)) = file.
Proof.
  revert last. induction encs as [|enc encs IH]; intros last; [reflexivity|].
  cbn [try_encodings]. rewrite read_csv_path.
  destruct (snd (read_csv file enc parse_dates Strict)); [apply IH|reflexivity].
Qed.

(** X19: on an input named by its path, which every read finds as the
    read before found it, the encodings are tried in the order of
    [encodings_to_try] and the frame of the first one that reads goes on
    to lines 25-27, without a warning.  When all four fail, the file is
    read with cp1252 and replacement of undecodable bytes, and one warning
    is shown, which names that mode and carries the text of the last
    error.  A warning is shown on that path only.  The only exception of
    [read_csv] that leaves the loader is one raised by the lossy read
    itself; as that read raises no decoding error, the loader raises
    none. *)
Theorem load_csv_clean_by_path :
  (forall pre enc post df,
      encodings_to_try = pre ++ enc :: post ->
      (forall e, In e pre -> strict_fails e) ->
      snd (read_csv file enc parse_dates Strict) = inr df ->
      load_csv_clean read_csv object_selects_str file parse_dates = (file, [], clean_frame object_selects_str df))
  /\ ((forall e, In e encodings_to_try -> strict_fails e) ->
      forall last, snd (read_csv file "utf-8" parse_dates Strict) = inl last ->
        load_csv_clean read_csv object_selects_str file parse_dates
        = match snd (read_csv file "cp1252" parse_dates Replace) with
          | inl e => (file, [], inl (Raised e))
          | inr df =>
              (file,
               ["Loaded with encoding='cp1252' and encoding_errors='replace' due to: "
                +:+ exn_text last],
               clean_frame object_selects_str df)
          end)
  /\ (snd (fst (load_csv_clean read_csv object_selects_str file parse_dates)) <> [] ->
      forall e, In e encodings_to_try -> strict_fails e)
  /\ (forall x, snd (load_csv_clean read_csv object_selects_str file parse_dates) = inl (Raised x) ->
        (forall e, In e encodings_to_try -> strict_fails e)
        /\ snd (read_csv file "cp1252" parse_dates Replace) = inl x)
  /\ ((forall x, snd (read_csv file "cp1252" parse_dates Replace) = inl x ->
                 unicode_error x = false) ->
      forall x, snd (load_csv_clean read_csv object_selects_str file parse_dates) = inl (Raised x) ->
                unicode_error x = false).
Proof.
  assert (forall df, exists l, clean_frame object_selects_str df = l /\ forall x, l <> inl (Raised x))
    as Hclean.
  { intros df. eexists. split; [reflexivity|]. intros x.
    unfold clean_frame. cbn zeta.
    generalize (labels (clean_labels df)). generalize (columns (clean_labels df)).
    intros cols all.
    enough (forall e, clean_columns object_selects_str all cols = inl e ->
                      e <> Raised x) as H.
    { destruct (clean_columns _ all cols) as [e|c] eqn:E; [|discriminate].
      intros [= He]. now apply (H e). }
    induction cols as [|[n c] cols IH]; intros e; [discriminate|].
    cbn [clean_columns].
    destruct (selected _ _); [destruct (_ <? _)%nat; [now intros [= <-]|];
                              destruct (negb _); [now intros [= <-]|]|];
      destruct (clean_columns _ all cols) as [e'|c']; try discriminate;
      intros [= <-]; now apply IH. }
  assert (forall x, snd (load_csv_clean read_csv object_selects_str file parse_dates) = inl (Raised x) ->
            (forall e, In e encodings_to_try -> strict_fails e)
            /\ snd (read_csv file "cp1252" parse_dates Replace) = inl x) as Hesc.
  { intros x. unfold load_csv_clean.
    pose proof (try_encodings_none encodings_to_try None) as Hnone.
    pose proof (try_encodings_file encodings_to_try None) as Hfile.
    destruct (try_encodings _ _ _ _ _) as [[f [df|]] last]; cbn [fst snd] in *.
    - intros Hx. destruct (Hclean df) as (l & Hl & Hne). rewrite Hl in Hx.
      now destruct (Hne x).
    - subst f. rewrite read_csv_path.
      destruct (snd (read_csv file "cp1252" parse_dates Replace)) as [e|df];
        cbn [snd].
      + intros [= <-]. split; [now apply Hnone|reflexivity].
      + intros Hx. destruct (Hclean df) as (l & Hl & Hne). rewrite Hl in Hx.
        now destruct (Hne x). }
  split; [|split; [|split; [|split]]].
  - intros pre enc post df Hsplit Hpre Henc. unfold load_csv_clean.
    pose proof (try_encodings_first pre enc post df None Hpre Henc) as H.
    rewrite <- Hsplit in H.
    destruct (try_encodings _ _ _ _ _) as [[f df_local] last]. cbn [fst] in H.
    now injection H as -> ->.
  - intros Hall last Hlast. unfold load_csv_clean.
    change encodings_to_try with (["cp1252"; "latin1"; "utf-8-sig"] ++ ["utf-8"]).
    rewrite (try_encodings_last _ _ None last); [| |assumption].
    + rewrite read_csv_path.
      now destruct (snd (read_csv file "cp1252" parse_dates Replace)).
    + intros e He. apply Hall. unfold encodings_to_try. cbn [In] in *. tauto.
  - unfold load_csv_clean.
    pose proof (try_encodings_none encodings_to_try None) as Hnone.
    destruct (try_encodings _ _ _ _ _) as [[f [df|]] last]; cbn [fst snd] in *;
      [intros H; now destruct H|].
    intros _. now apply Hnone.
  - exact Hesc.
  - intros Hlossy x Hx. apply Hlossy. now apply Hesc.
Qed.

End LoaderProperties.

Lemma load_csv_clean_by_path_witness :
  rereadable Sample.undecodable
  /\ (forall e, In e encodings_to_try -> strict_fails Sample.undecodable tt None e)
  /\ load_csv_clean Sample.undecodable true tt None
     = (tt,
        ["Loaded with encoding='cp1252' and encoding_errors='replace' due to: "
         +:+ "'utf-8' codec can't decode byte"],
        inr Sample.text_dates)
  /\ load_csv_clean Sample.latin1_file true tt None
     = (tt, [], inr Sample.both_stations).
Proof.
  assert (rereadable Sample.undecodable) as Hu by (now intros [] enc pd []).
  assert (rereadable Sample.latin1_file) as Hl.
  { intros [] enc pd pol. unfold Sample.latin1_file.
    destruct (String.eqb enc "cp1252"), pol; reflexivity. }
  assert (forall e, In e encodings_to_try -> strict_fails Sample.undecodable tt None e)
    as Hall by (intros e _; eexists; reflexivity).
  destruct (load_csv_clean_by_path Sample.undecodable true tt None Hu)
    as (_ & Hfall & _).
  destruct (load_csv_clean_by_path Sample.latin1_file true tt None Hl)
    as (Hfirst & _).
  split; [exact Hu|]. split; [exact Hall|]. split.
  - etransitivity; [exact (Hfall Hall _ eq_refl)|reflexivity].
  - etransitivity;
      [apply (Hfirst ["cp1252"] "latin1" ["utf-8-sig"; "utf-8"] Sample.both_stations);
       [reflexivity| |reflexivity]|reflexivity].
    intros e [<-|[]]. eexists; reflexivity.
Defined.

(** C9 at an open handle on a file with a byte that cp1252 does not
    decode.  The first attempt reads the stream to its end and raises the
    decoding error; no attempt rewinds the stream, so latin1, which reads
    those bytes, and every later attempt, the lossy one included, find
    nothing to parse, and the loader raises [EmptyDataError] without a
    warning.  Through its path the same file is loaded by latin1. *)
Theorem load_csv_clean_handle_not_rewound (object_selects_str : bool) :
  snd (Cases.handle_read Cases.AtStart "cp1252" None Strict) = inl Cases.decode_error
  /\ snd (Cases.handle_read Cases.AtStart "latin1" None Strict)
     = inr Sample.text_dates
  /\ load_csv_clean Cases.handle_read object_selects_str Cases.AtStart None
     = (Cases.Consumed, [], inl (Raised Cases.empty_data_error))
  /\ load_csv_clean Cases.path_read object_selects_str tt None
     = (tt, [], inr Sample.text_dates).
Proof. destruct object_selects_str; repeat split; vm_compute; reflexivity. Qed.

(** ** [to_long] and the store *)





Section Extras.

Context {ops : PandasOps}.



Lemma validate_app (a b : list (Row Cell unit)) :
  validate (a ++ b) = validate a ++ validate b.
Proof.
  unfold validate. cbn zeta.
  now rewrite !assign_time_label_map, List.map_app, !List.filter_app, List.map_app,
    List.filter_app.
Qed.


(** X3: Lines 59-68: in the output the records of the manual family come
    first, those of the BMS family after them. *)
Theorem to_long_manual_first (df : ref) (st st' : Store) (out : list LongRecord) :
  to_long df st = (st', inr out) ->
  exists manual bms,
    out = manual ++ bms
    /\ Forall (fun r => Source r = "Manual" /\ In (Time r) MANUAL_COLS) manual
    /\ Forall (fun r => Source r = "BMS" /\ In (Time r) BMS_COLS) bms.
Proof.
  intros Hrun.
  apply to_long_inv in Hrun as (st1 & df1 & rows & _ & _ & _ & Hre & ->).
  apply reshape_rows in Hre as ->. rewrite validate_app.
  do 2 eexists. split; [reflexivity|].
  split; apply List.Forall_forall; intros r Hr;
    apply validate_In in Hr as (m & Hm & -> & _);
    apply melt_In in Hm as (v & i & Hv & _ & ->);
    apply filter_In in Hv as [Hv _]; now split.
Qed.


End Extras.



Lemma to_long_manual_first_witness :
  snd (@to_long Sample.ops 0 [Cases.two_families]) = inr Cases.two_families_out
  /\ exists manual bms,
       Cases.two_families_out = manual ++ bms
       /\ Forall (fun r : LongRecord =>
                    Source r = "Manual" /\ In (Time r) MANUAL_COLS) manual
       /\ Forall (fun r : LongRecord =>
                    Source r = "BMS" /\ In (Time r) BMS_COLS) bms.
Proof.
  split; [vm_compute; reflexivity|].
  apply (@to_long_manual_first Sample.ops 0 [Cases.two_families]
           (fst (@to_long Sample.ops 0 [Cases.two_families]))).
  vm_compute; reflexivity.
Defined.


(** ** The shape of a time label *)


(** ** Cleaning, lines 25-27 *)

Lemma has_char_append (c : ascii) (a b : string) :
  has_char c (a +:+ b) = has_char c a || has_char c b.
Proof.
  induction a as [|x a IH]; [reflexivity|]. norm_append. cbn [has_char].
  now rewrite IH, orb_assoc.
Qed.

Lemma replace_char_absent (s : string) :
  has_char nbsp (replace_char nbsp " " s) = false.
Proof.
  induction s as [|x s IH]; [reflexivity|]. cbn [replace_char].
  rewrite has_char_append, IH, orb_false_r.
  destruct (Ascii.eqb x nbsp) eqn:E; [reflexivity|]. cbn [has_char].
  now rewrite E.
Qed.

Lemma replace_char_id (old : ascii) (new s : string) :
  has_char old s = false -> replace_char old new s = s.
Proof.
  induction s as [|x s IH]; [reflexivity|]. cbn [has_char replace_char].
  intros H. apply orb_false_elim in H as [Hx Hs]. now rewrite Hx, IH.
Qed.

Lemma has_char_lstrip (c : ascii) (s : string) :
  has_char c s = false -> has_char c (lstrip s) = false.
Proof.
  induction s as [|x s IH]; [reflexivity|]. cbn [lstrip].
  destruct (isspace x); [|easy]. cbn [has_char]. intros H.
  apply orb_false_elim in H as [_ Hs]. now apply IH.
Qed.

Lemma rstrip_cons (x : ascii) (s : string) :
  rstrip (String x s)
  = match rstrip s with
    | EmptyString => if isspace x then EmptyString else String x EmptyString
    | String y t => String x (String y t)
    end.
Proof. reflexivity. Qed.

Lemma has_char_rstrip (c : ascii) (s : string) :
  has_char c s = false -> has_char c (rstrip s) = false.
Proof.
  induction s as [|x s IH]; [reflexivity|]. rewrite rstrip_cons.
  cbn [has_char]. intros H. apply orb_false_elim in H as [Hx Hs].
  specialize (IH Hs). destruct (rstrip s) as [|y t].
  - destruct (isspace x); [reflexivity|]. cbn [has_char]. now rewrite Hx.
  - cbn [has_char] in *. now rewrite Hx, IH.
Qed.

Lemma lstrip_head (s : string) : starts_with_space (lstrip s) = false.
Proof.
  induction s as [|x s IH]; [reflexivity|]. cbn [lstrip].
  destruct (isspace x) eqn:E; [exact IH|]. cbn [starts_with_space]. exact E.
Qed.

Lemma lstrip_id (s : string) : starts_with_space s = false -> lstrip s = s.
Proof.
  destruct s as [|x s]; [reflexivity|]. cbn [starts_with_space lstrip].
  now intros ->.
Qed.

Lemma rstrip_last (s : string) : ends_with_space (rstrip s) = false.
Proof.
  induction s as [|x s IH]; [reflexivity|]. rewrite rstrip_cons.
  destruct (rstrip s) as [|y t].
  - destruct (isspace x) eqn:E; [reflexivity|]. cbn [ends_with_space]. exact E.
  - exact IH.
Qed.

Lemma rstrip_id (s : string) : ends_with_space s = false -> rstrip s = s.
Proof.
  induction s as [|x s IH]; [reflexivity|]. rewrite rstrip_cons.
  destruct s as [|y t].
  - cbn [ends_with_space rstrip]. now intros ->.
  - intros H. change (ends_with_space (String y t) = false) in H.
    now rewrite (IH H).
Qed.

Lemma rstrip_head (s : string) :
  starts_with_space s = false -> starts_with_space (rstrip s) = false.
Proof.
  destruct s as [|x s]; [reflexivity|]. rewrite rstrip_cons.
  cbn [starts_with_space]. intros Hx.
  destruct (rstrip s); [now rewrite Hx|exact Hx].
Qed.

Lemma clean_text_normal (s : string) : normal_text (clean_text s).
Proof.
  unfold normal_text, clean_text, strip. split; [|split].
  - apply has_char_rstrip, has_char_lstrip, replace_char_absent.
  - apply rstrip_head, lstrip_head.
  - apply rstrip_last.
Qed.

Lemma clean_text_id (s : string) : normal_text s -> clean_text s = s.
Proof.
  intros (Hn & Hh & Hl). unfold clean_text, strip.
  now rewrite replace_char_id, lstrip_id, rstrip_id.
Qed.

(** X10: A cleaned text holds no non-breaking space and has no whitespace at
    either end, and cleaning it again changes nothing; cleaning changes
    nothing on any text of that form. *)
Theorem clean_text_idempotent (s : string) :
  normal_text (clean_text s)
  /\ clean_text (clean_text s) = clean_text s
  /\ (normal_text s <-> clean_text s = s).
Proof.
  split; [apply clean_text_normal|]. split.
  - apply clean_text_id, clean_text_normal.
  - split; [apply clean_text_id|]. intros <-. apply clean_text_normal.
Qed.

Lemma clean_column_twice (c : Column) : clean_column (clean_column c) = clean_column c.
Proof.
  unfold clean_column. cbn [dtype cells]. f_equal. rewrite List.map_map.
  apply List.map_ext. intros [s| | |]; try reflexivity.
  now rewrite (clean_text_id _ (clean_text_normal s)).
Qed.

Lemma clean_column_normal (c : Column) : Forall normal_cell (cells (clean_column c)).
Proof.
  unfold clean_column. cbn [cells]. apply List.Forall_forall. intros x Hx.
  apply in_map_iff in Hx as (y & <- & _).
  destruct y as [s| | |]; [left|now right..].
  exists (clean_text s). split; [reflexivity|apply clean_text_normal].
Qed.

(** A cleaned column holds texts and missing values, so [.str] is allowed
    on it. *)
Lemma clean_column_accessor (c : Column) : str_accessor_ok (clean_column c) = true.
Proof.
  unfold str_accessor_ok, clean_column. cbn [dtype cells].
  assert (is_number (CNum nan) = false) as Hnan by (vm_compute; reflexivity).
  assert (existsb is_number
            (map (fun x => match x with CStr s => CStr (clean_text s) | _ => CNum nan end)
                 (cells c)) = false
          /\ existsb is_time
               (map (fun x => match x with CStr s => CStr (clean_text s) | _ => CNum nan end)
                    (cells c)) = false) as [-> ->].
  { induction (cells c) as [|x l [IHn IHt]]; [now split|].
    cbn [existsb map]. rewrite IHn, IHt.
    destruct x; rewrite ?Hnan; now split. }
  cbn [xorb negb]. rewrite orb_true_r. now destruct (dtype c).
Qed.

Section Cleaning.

Variable object_selects_str : bool.

Local Abbreviation cleaned :=
  (fun p : string * Column =>
     (fst p, if selected object_selects_str (dtype (snd p))
             then clean_column (snd p) else snd p)).

Lemma clean_columns_map (all_labels : list string) (cols cols' : list (string * Column)) :
  clean_columns object_selects_str all_labels cols = inr cols' ->
  cols' = map cleaned cols.
Proof.
  revert cols'. induction cols as [|[n c] cols IH]; intros cols'; cbn [clean_columns map].
  - now intros [= <-].
  - cbn [fst snd]. destruct (selected _ _).
    + destruct (_ <? _)%nat; [discriminate|]. destruct (negb _); [discriminate|].
      destruct (clean_columns _ _ cols) as [e|r]; [discriminate|].
      intros [= <-]. now rewrite (IH r).
    + destruct (clean_columns _ _ cols) as [e|r]; [discriminate|].
      intros [= <-]. now rewrite (IH r).
Qed.

Lemma clean_columns_ok (all_labels : list string) (cols cols' : list (string * Column))
    (n : string) (c : Column) :
  clean_columns object_selects_str all_labels cols = inr cols' ->
  In (n, c) cols -> selected object_selects_str (dtype c) = true ->
  (1 <? count_label n all_labels)%nat = false /\ str_accessor_ok c = true.
Proof.
  revert cols'. induction cols as [|[n0 c0] cols IH]; intros cols' Hrun Hin Hsel;
    [destruct Hin|].
  cbn [clean_columns] in Hrun. destruct Hin as [[= -> ->]|Hin].
  - rewrite Hsel in Hrun. revert Hrun. destruct (_ <? _)%nat; [discriminate|].
    destruct (str_accessor_ok c); [now split|discriminate].
  - revert Hrun. destruct (clean_columns _ _ cols) as [e|r] eqn:E.
    + destruct (selected _ (dtype c0)); [|discriminate].
      destruct (1 <? count_label n0 all_labels)%nat; [discriminate|].
      now destruct (negb (str_accessor_ok c0)).
    + intros _. now apply (IH r).
Qed.

Lemma clean_columns_fixed (all_labels : list string) (cols : list (string * Column)) :
  (forall n c, In (n, c) cols -> selected object_selects_str (dtype c) = true ->
     (1 <? count_label n all_labels)%nat = false
     /\ str_accessor_ok c = true
     /\ clean_column c = c) ->
  clean_columns object_selects_str all_labels cols = inr cols.
Proof.
  induction cols as [|[n c] cols IH]; intros H; [reflexivity|].
  cbn [clean_columns]. rewrite IH by (intros n' c' Hin; apply H; now right).
  destruct (selected _ _) eqn:Hsel; [|reflexivity].
  destruct (H n c (or_introl eq_refl) Hsel) as (-> & -> & ->). reflexivity.
Qed.

Lemma clean_frame_inv (f g : DataFrame) :
  clean_frame object_selects_str f = inr g ->
  g = mkFrame (nrows f) (map cleaned (columns (clean_labels f)))
  /\ forall n c, In (n, c) (columns (clean_labels f)) ->
       selected object_selects_str (dtype c) = true ->
       (1 <? count_label n (labels (clean_labels f)))%nat = false
       /\ str_accessor_ok c = true.
Proof.
  unfold clean_frame. cbn zeta.
  destruct (clean_columns _ _ _) as [e|cols] eqn:E; [discriminate|].
  intros [= <-]. split.
  - now rewrite (clean_columns_map _ _ _ E).
  - intros n c. now apply (clean_columns_ok _ _ _ n c E).
Qed.

Lemma clean_frame_labels (f g : DataFrame) :
  clean_frame object_selects_str f = inr g ->
  labels g = map clean_text (labels f).
Proof.
  intros H. apply clean_frame_inv in H as [-> _].
  unfold labels, clean_labels. cbn [columns]. rewrite !List.map_map.
  now apply List.map_ext.
Qed.

Lemma clean_frame_twice (f g : DataFrame) :
  clean_frame object_selects_str f = inr g ->
  clean_frame object_selects_str g = inr g.
Proof.
  intros H. pose proof (clean_frame_labels f g H) as Hlab.
  apply clean_frame_inv in H as [Hg Hok].
  assert (clean_labels g = g) as Hfix.
  { subst g. unfold clean_labels. cbn [nrows columns]. f_equal.
    rewrite !List.map_map. apply List.map_ext. intros [n c]. cbn [fst snd].
    now rewrite (clean_text_id _ (clean_text_normal n)). }
  assert (labels g = labels (clean_labels f)) as Hlab'.
  { rewrite Hlab. unfold labels, clean_labels. cbn [columns].
    now rewrite !List.map_map. }
  unfold clean_frame. cbn zeta. rewrite Hfix, clean_columns_fixed.
  - subst g. reflexivity.
  - intros n c Hin Hsel. rewrite Hlab'. subst g. cbn [columns] in Hin.
    apply in_map_iff in Hin as ([n0 c0] & [= <- <-] & Hin0). cbn [fst snd] in *.
    destruct (selected object_selects_str (dtype c0)) eqn:Hsel0.
    + destruct (Hok n0 c0 Hin0 Hsel0) as [Hcount _].
      split; [exact Hcount|]. split; [apply clean_column_accessor|].
      apply clean_column_twice.
    + congruence.
Qed.

Lemma clean_frame_normal (f g : DataFrame) :
  clean_frame object_selects_str f = inr g -> normal_frame g.
Proof.
  intros H. pose proof (clean_frame_labels f g H) as Hlab.
  apply clean_frame_inv in H as [Hg _]. split.
  - rewrite Hlab. apply List.Forall_forall. intros l Hl.
    apply in_map_iff in Hl as (x & <- & _). apply clean_text_normal.
  - subst g. cbn [columns]. apply List.Forall_forall. intros p Hp.
    apply in_map_iff in Hp as ([n c] & <- & _). cbn [fst snd].
    destruct (selected object_selects_str (dtype c)) eqn:Hsel.
    + intros _. apply clean_column_normal.
    + intros Hd. rewrite Hd in Hsel. discriminate.
Qed.

(** X11: When lines 25-27 raise nothing, they keep the shape of the
    frame: the number of rows, the number of columns, the dtype and the
    length of every column; the labels are the cleaned labels; the columns
    that [select_dtypes] does not select are left as they are; and
    cleaning the cleaned frame raises nothing and changes nothing. *)
Theorem clean_frame_idempotent (f g : DataFrame) :
  clean_frame object_selects_str f = inr g ->
  clean_frame object_selects_str g = inr g
  /\ nrows g = nrows f
  /\ labels g = map clean_text (labels f)
  /\ map (fun p => (dtype (snd p), List.length (cells (snd p)))) (columns g)
     = map (fun p => (dtype (snd p), List.length (cells (snd p)))) (columns f)
  /\ (forall name col, In (name, col) (columns f) ->
        selected object_selects_str (dtype col) = false ->
        In (clean_text name, col) (columns g)).
Proof.
  intros H. split; [now apply (clean_frame_twice f)|].
  split; [|split; [now apply clean_frame_labels|]];
    apply clean_frame_inv in H as [-> _]; [reflexivity|].
  unfold clean_labels. cbn [columns]. split.
  - rewrite !List.map_map. apply List.map_ext. intros [n c]. cbn [fst snd].
    destruct (selected _ _); [|reflexivity].
    unfold clean_column. cbn [dtype cells]. now rewrite List.length_map.
  - intros name col Hin Hsel. rewrite List.map_map. apply in_map_iff.
    exists (name, col). split; [|assumption]. cbn [fst snd]. now rewrite Hsel.
Qed.

End Cleaning.

Lemma clean_frame_idempotent_witness :
  clean_frame true Cases.raw_export = inr Cases.raw_export_clean
  /\ clean_frame true Cases.raw_export_clean = inr Cases.raw_export_clean
  /\ labels Cases.raw_export_clean = map clean_text (labels Cases.raw_export)
  /\ In (clean_text "1400_BMS ", Sample.float_col [26.5%float])
        (columns Cases.raw_export_clean).
Proof.
  assert (clean_frame true Cases.raw_export = inr Cases.raw_export_clean) as H
    by (vm_compute; reflexivity).
  destruct (clean_frame_idempotent true Cases.raw_export Cases.raw_export_clean H)
    as (Htwice & _ & Hlab & _ & Hother).
  split; [exact H|]. split; [exact Htwice|]. split; [exact Hlab|].
  apply Hother; [vm_compute; tauto|reflexivity].
Defined.

Section LoaderResult.

Context {File : Type}.
Variable read_csv :
  File -> string -> option (list string) -> ErrorsPolicy
  -> File * (Exception + DataFrame).
Variable object_selects_str : bool.

Lemma load_csv_clean_cases (file : File) (parse_dates : option (list string)) :
  (exists file' raw w,
      load_csv_clean read_csv object_selects_str file parse_dates
      = (file', w, clean_frame object_selects_str raw)
      /\ List.length w <= 1)
  \/ (exists file' e,
        load_csv_clean read_csv object_selects_str file parse_dates
        = (file', [], inl (Raised e))).
Proof.
  unfold load_csv_clean.
  destruct (try_encodings _ _ _ _ _) as [[f [df|]] last].
  - left. exists f, df, []. split; [reflexivity|cbn; lia].
  - destruct (read_csv f "cp1252" parse_dates Replace) as [f' [e|df]].
    + right. now exists f', e.
    + left. exists f', df, [fallback_warning last]. split; [reflexivity|cbn; lia].
Qed.

(** X12: Whatever was read, and whether the input is a path or a handle,
    a frame that [load_csv_clean] returns is normalised: its labels and
    the texts of its object columns hold no non-breaking space and no
    whitespace at either end, the other cells of its object columns are
    missing values, and lines 25-27 applied to it again raise nothing and
    change nothing.  At most one warning is shown. *)
Theorem load_csv_clean_normalised (file : File) (parse_dates : option (list string)) :
  (forall f,
      snd (load_csv_clean read_csv object_selects_str file parse_dates) = inr f ->
      normal_frame f /\ clean_frame object_selects_str f = inr f)
  /\ List.length
       (snd (fst (load_csv_clean read_csv object_selects_str file parse_dates))) <= 1.
Proof.
  destruct (load_csv_clean_cases file parse_dates)
    as [(file' & raw & w & -> & Hw)|(file' & e & ->)]; cbn [fst snd List.length].
  - split; [|exact Hw]. intros f Hf.
    split; [now apply (clean_frame_normal object_selects_str raw)
           |now apply (clean_frame_twice object_selects_str raw)].
  - split; [discriminate|lia].
Qed.

End LoaderResult.

Lemma load_csv_clean_normalised_witness :
  snd (load_csv_clean Sample.latin1_file true tt None) = inr Sample.both_stations
  /\ normal_frame Sample.both_stations
  /\ clean_frame true Sample.both_stations = inr Sample.both_stations.
Proof.
  split; [reflexivity|].
  apply (proj1 (load_csv_clean_normalised Sample.latin1_file true tt None)).
  reflexivity.
Defined.


(** ** Sorting and first occurrences *)

Section SortingFacts.

Context {A : Type} (leb : A -> A -> bool).

Lemma insert_by_perm (x : A) (l : list A) : Permutation (insert_by leb x l) (x :: l).
Proof.
  induction l as [|y l IH]; [reflexivity|]. cbn [insert_by].
  destruct (leb x y); [reflexivity|].
  rewrite IH. apply perm_swap.
Qed.

Lemma sort_by_perm (l : list A) : Permutation (sort_by leb l) l.
Proof.
  induction l as [|x l IH]; [reflexivity|]. cbn [sort_by fold_right].
  fold (sort_by leb l). now rewrite insert_by_perm, IH.
Qed.

Lemma sort_by_In (l : list A) (x : A) : In x (sort_by leb l) <-> In x l.
Proof.
  split; apply Permutation_in; [|symmetry]; apply sort_by_perm.
Qed.

Hypothesis leb_total : forall a b, leb a b = true \/ leb b a = true.

Lemma insert_by_sorted (x : A) (l : list A) :
  Sorted (fun a b => leb a b = true) l ->
  Sorted (fun a b => leb a b = true) (insert_by leb x l).
Proof.
  induction l as [|y l IH]; intros Hs.
  - repeat constructor.
  - cbn [insert_by]. destruct (leb x y) eqn:E.
    + constructor; [assumption|]. now constructor.
    + apply Sorted_inv in Hs as [Hs Hhd]. constructor; [now apply IH|].
      destruct l as [|z l]; cbn [insert_by].
      * constructor. destruct (leb_total x y); congruence.
      * apply HdRel_inv in Hhd. destruct (leb x z);
          constructor; [|assumption]. destruct (leb_total x y); congruence.
Qed.

Lemma sort_by_sorted (l : list A) :
  Sorted (fun a b => leb a b = true) (sort_by leb l).
Proof.
  induction l as [|x l IH]; [constructor|]. cbn [sort_by fold_right].
  now apply insert_by_sorted.
Qed.

End SortingFacts.

Section UniqueFacts.

Context {A : Type} (eqb : A -> A -> bool).
Hypothesis eqb_eq : forall a b, eqb a b = true <-> a = b.

Lemma unique_by_In (l : list A) (x : A) : In x (unique_by eqb l) <-> In x l.
Proof.
  induction l as [|a l IH]; [reflexivity|]. cbn [unique_by In].
  rewrite filter_In, IH, negb_true_iff. split.
  - intros [->|[Hx _]]; auto.
  - intros [->|Hx]; [now left|].
    destruct (eqb x a) eqn:E; [left; symmetry; now apply eqb_eq|right; now split].
Qed.

Lemma unique_by_NoDup (l : list A) : List.NoDup (unique_by eqb l).
Proof.
  induction l as [|a l IH]; [constructor|]. cbn [unique_by]. constructor.
  - intros Hin. apply filter_In in Hin as [_ Hne].
    apply negb_true_iff in Hne.
    assert (eqb a a = true) by now apply eqb_eq. congruence.
  - now apply List.NoDup_filter.
Qed.

End UniqueFacts.

Lemma sorted_unique_str (l : list string) :
  Sorted (fun a b => String.leb a b = true) (sorted_str (unique_str l))
  /\ List.NoDup (sorted_str (unique_str l))
  /\ forall x, In x (sorted_str (unique_str l)) <-> In x l.
Proof.
  unfold sorted_str, unique_str. split; [|split].
  - apply sort_by_sorted, String.leb_total.
  - apply (Permutation_NoDup (l := unique_by String.eqb l));
      [symmetry; apply sort_by_perm|apply unique_by_NoDup, String.eqb_eq].
  - intros x. rewrite sort_by_In. apply unique_by_In, String.eqb_eq.
Qed.

(** ** Reference lines, lines 131-143 *)

Lemma enumerate_nth {A} (start : nat) (l : list A) (k : nat) :
  nth_error (enumerate start l) k
  = option_map (fun x => (start + k, x)) (nth_error l k).
Proof.
  unfold enumerate. revert start k. induction l as [|x l IH]; intros start k.
  - now destruct k.
  - destruct k as [|k]; cbn [List.length seq combine nth_error option_map].
    + now rewrite Nat.add_0_r.
    + rewrite IH. now rewrite Nat.add_succ_r.
Qed.

Lemma enumerate_fst {A} (start : nat) (l : list A) :
  map fst (enumerate start l) = seq start (List.length l).
Proof.
  unfold enumerate. revert start. induction l as [|x l IH]; intros start;
    [reflexivity|].
  cbn [List.length seq combine map fst]. now rewrite IH.
Qed.

Lemma NoDup_map_in {A B} (g : A -> B) (l : list A) :
  (forall a b, In a l -> In b l -> g a = g b -> a = b) ->
  List.NoDup l -> List.NoDup (map g l).
Proof.
  induction l as [|x l IH]; intros Hinj Hnd; [constructor|].
  apply NoDup_cons_iff in Hnd as [Hx Hnd]. cbn [map]. constructor.
  - intros Hin. apply in_map_iff in Hin as (z & Hz & Hzl).
    apply Hx. rewrite <- (Hinj z x); [assumption|now right|now left|assumption].
  - apply IH; [|assumption]. intros a b Ha Hb. apply Hinj; now right.
Qed.

(** X14: With facets, the loop of lines 135-139 draws one line per location of
    [loc_order]: the line of the location at position [k], counted from 0,
    is at its reference height in row [1 + k / 4] and column
    [1 + k mod 4].  The column is between 1 and 4, and no two lines are in
    the same cell. *)
Theorem facet_lines_cells (locs : list string) :
  List.length (facet_lines locs) = List.length locs
  /\ (forall k loc, nth_error locs k = Some loc ->
        nth_error (facet_lines locs) k
        = Some (mkHLine (reference loc) (Some (1 + k / 4)) (Some (1 + k mod 4))))
  /\ List.NoDup (map (fun h => (row h, col h)) (facet_lines locs))
  /\ Forall (fun h => exists r c, row h = Some r /\ col h = Some c
                                  /\ 1 <= r /\ 1 <= c <= 4)
            (facet_lines locs).
Proof.
  unfold facet_lines. split; [|split; [|split]].
  - rewrite List.length_map. unfold enumerate.
    rewrite List.length_combine, List.length_seq. lia.
  - intros k loc Hk. rewrite List.nth_error_map, enumerate_nth, Hk.
    cbn [option_map fst snd]. now replace (1 + k - 1) with k by lia.
  - rewrite List.map_map. cbn [row col].
    rewrite <- (List.map_map fst
                  (fun i => (Some (1 + (i - 1) / 4), Some (1 + (i - 1) mod 4)))).
    rewrite enumerate_fst. apply NoDup_map_in; [|apply List.seq_NoDup].
    intros a b Ha Hb Heq. apply in_seq in Ha, Hb.
    assert (1 + (a - 1) / 4 = 1 + (b - 1) / 4
            /\ 1 + (a - 1) mod 4 = 1 + (b - 1) mod 4) as [Hq Hm]
      by (split; congruence).
    pose proof (Nat.div_mod_eq (a - 1) 4). pose proof (Nat.div_mod_eq (b - 1) 4).
    lia.
  - apply List.Forall_forall. intros h Hh.
    apply in_map_iff in Hh as (p & <- & _). cbn [row col].
    do 2 eexists. split; [reflexivity|]. split; [reflexivity|].
    pose proof (Nat.mod_upper_bound (fst p - 1) 4). lia.
Qed.

Lemma facet_lines_cells_witness :
  nth_error ["Concourse"; "Mezzanine"; "Platform1"; "Platform2"; "platform3"] 4
  = Some "platform3"
  /\ nth_error
       (facet_lines ["Concourse"; "Mezzanine"; "Platform1"; "Platform2"; "platform3"]) 4
     = Some (mkHLine 28 (Some 2) (Some 1)).
Proof.
  split; [reflexivity|].
  apply (proj1 (proj2 (facet_lines_cells
           ["Concourse"; "Mezzanine"; "Platform1"; "Platform2"; "platform3"]))
           4 "platform3").
  reflexivity.
Defined.

Lemma two_references (u : list Z) :
  Sorted (fun a b => Z.leb a b = true) u ->
  List.NoDup u ->
  (forall x, In x u -> x = 24%Z \/ x = 28%Z) ->
  u = (if existsb (Z.eqb 24) u then [24%Z] else [])
      ++ (if existsb (Z.eqb 28) u then [28%Z] else []).
Proof.
  intros Hs Hnd Hval.
  destruct u as [|a [|b [|c u]]].
  - reflexivity.
  - destruct (Hval a) as [->| ->]; [now left|reflexivity..].
  - apply Sorted_inv in Hs as [_ Hab]. apply HdRel_inv in Hab.
    apply NoDup_cons_iff in Hnd as [Hne _].
    destruct (Hval a) as [->| ->]; [now left|..];
      (destruct (Hval b) as [->| ->]; [right; now left|..]);
      try reflexivity; try discriminate Hab; exfalso; apply Hne; now left.
  - exfalso. apply NoDup_cons_iff in Hnd as [Ha Hnd].
    apply NoDup_cons_iff in Hnd as [Hb _].
    destruct (Hval a) as [->| ->]; [now left|..];
      (destruct (Hval b) as [->| ->]; [right; now left|..]);
      (destruct (Hval c) as [->| ->]; [right; right; now left|..]);
      try (apply Ha; now left); try (apply Ha; right; now left);
      apply Hb; now left.
Qed.

(** X15: Without facets, lines 141-143 draw at most two lines: one at 24 when
    some selected location contains "Platform", then one at 28 when some
    selected location does not; none when no location is selected. *)
Theorem unique_refs_cases (sel_locs : list string) :
  unique_refs sel_locs
  = (if existsb (str_in "Platform") sel_locs then [24%Z] else [])
    ++ (if existsb (fun l => negb (str_in "Platform" l)) sel_locs then [28%Z] else []).
Proof.
  assert (forall x, In x (unique_refs sel_locs) <-> In x (map reference sel_locs))
    as Hin.
  { intros x. unfold unique_refs. rewrite sort_by_In.
    apply unique_by_In, Z.eqb_eq. }
  assert (forall v p, (forall l, reference l = v <-> p l = true) ->
            existsb (Z.eqb v) (unique_refs sel_locs) = existsb p sel_locs) as Hex.
  { intros v p Hp. apply eq_true_iff_eq. rewrite !existsb_exists. split.
    - intros (x & Hx & Hv). apply Z.eqb_eq in Hv as <-.
      apply Hin, in_map_iff in Hx as (l & Hl & Hll). exists l. split; [assumption|].
      now apply Hp.
    - intros (l & Hl & Hpl). exists v. split; [|apply Z.eqb_refl].
      apply Hin, in_map_iff. exists l. split; [now apply Hp|assumption]. }
  rewrite (two_references (unique_refs sel_locs)).
  - rewrite (Hex 24%Z (str_in "Platform")),
      (Hex 28%Z (fun l => negb (str_in "Platform" l))); [reflexivity| |];
      intros l; unfold reference; now destruct (str_in "Platform" l).
  - apply sort_by_sorted. intros a b.
    destruct (Z.leb_spec a b); [now left|right; apply Z.leb_le; lia].
  - apply (Permutation_NoDup (l := unique_by Z.eqb (map reference sel_locs)));
      [symmetry; apply sort_by_perm|apply unique_by_NoDup, Z.eqb_eq].
  - intros x Hx. apply Hin, in_map_iff in Hx as (l & <- & _).
    unfold reference. destruct (str_in "Platform" l); auto.
Qed.

(** ** The sidebar and the mask, lines 86-116 *)

Lemma fold_min_le (l : list Z) (x : Z) :
  (fold_left Z.min l x <= x)%Z
  /\ forall y, In y l -> (fold_left Z.min l x <= y)%Z.
Proof.
  revert x. induction l as [|a l IH]; intros x; cbn [fold_left].
  - split; [lia|intros y []].
  - destruct (IH (Z.min x a)) as [H1 H2]. split; [lia|].
    intros y [<-|Hy]; [lia|now apply H2].
Qed.

Lemma fold_max_ge (l : list Z) (x : Z) :
  (x <= fold_left Z.max l x)%Z
  /\ forall y, In y l -> (y <= fold_left Z.max l x)%Z.
Proof.
  revert x. induction l as [|a l IH]; intros x; cbn [fold_left].
  - split; [lia|intros y []].
  - destruct (IH (Z.max x a)) as [H1 H2]. split; [lia|].
    intros y [<-|Hy]; [lia|now apply H2].
Qed.

Lemma series_min_le (l : list Z) (lo t : Z) :
  series_min l = Some lo -> In t l -> (lo <= t)%Z.
Proof.
  destruct l as [|x l]; [discriminate|]. cbn [series_min]. intros [= <-].
  destruct (fold_min_le l x) as [H1 H2]. intros [<-|Ht]; [assumption|now apply H2].
Qed.

Lemma series_max_ge (l : list Z) (hi t : Z) :
  series_max l = Some hi -> In t l -> (t <= hi)%Z.
Proof.
  destruct l as [|x l]; [discriminate|]. cbn [series_max]. intros [= <-].
  destruct (fold_max_ge l x) as [H1 H2]. intros [<-|Ht]; [assumption|now apply H2].
Qed.

Lemma timestamps_In (cs : list Cell) (t : Z) :
  In t (timestamps cs) <-> In (CTime t) cs.
Proof.
  unfold timestamps. rewrite in_flat_map. split.
  - intros (c & Hc & Ht). destruct c as [x|x|t'|]; cbn [In] in Ht;
      try contradiction. destruct Ht as [<-|[]]. assumption.
  - intros H. exists (CTime t). split; [assumption|now left].
Qed.

Section SidebarFacts.

Context {ops : PandasOps}.

Lemma to_long_labels (df : ref) (st st' : Store) (out : list LongRecord) (r : LongRecord) :
  to_long df st = (st', inr out) -> In r out ->
  exists l, TimeLabel r = Some l /\ In l TIME_ORDER.
Proof.
  intros Hrun Hr.
  apply to_long_inv in Hrun as (st1 & df1 & rows & _ & _ & _ & Hre & ->).
  apply validate_In in Hr as (m & Hm & -> & _).
  apply (reshape_In _ _ _ Hre) in Hm.
  assert (In (Time m) (BMS_COLS ++ MANUAL_COLS)) as Hin.
  { apply in_app_iff.
    destruct Hm as [Hm|Hm]; apply melt_In in Hm as (v & i & Hv & _ & ->);
      apply filter_In in Hv as [Hv _]; cbn [Time]; tauto. }
  destruct (reading_label _ Hin) as [Hcat Hord].
  exists (to_time_label (Time m)). split; [|exact Hord].
  unfold labelled, with_label, with_value. cbn. exact Hcat.
Qed.

Lemma stations_In (df_long : list LongRecord) (x : string) :
  In x (map astype_str (List.filter (fun c => negb (isna c)) (map Station df_long)))
  <-> exists r, In r df_long /\ isna (Station r) = false /\ astype_str (Station r) = x.
Proof.
  rewrite in_map_iff. split.
  - intros (c & <- & Hc). apply filter_In in Hc as [Hc Hna].
    apply in_map_iff in Hc as (r & <- & Hr). apply negb_true_iff in Hna.
    now exists r.
  - intros (r & Hr & Hna & <-). exists (Station r). split; [reflexivity|].
    apply filter_In. split; [now apply in_map|now rewrite Hna].
Qed.

Lemma avail_locs_In (df_long : list LongRecord) (s x : string) :
  In x (avail_locs df_long s)
  <-> exists r, In r df_long /\ astype_str (Station r) = s
                /\ isna (Location r) = false /\ astype_str (Location r) = x.
Proof.
  unfold avail_locs. rewrite (proj2 (proj2 (sorted_unique_str _))), in_map_iff.
  split.
  - intros (c & <- & Hc). apply filter_In in Hc as [Hc Hna].
    apply in_map_iff in Hc as (r & <- & Hr). apply filter_In in Hr as [Hr Hst].
    apply String.eqb_eq in Hst. apply negb_true_iff in Hna. now exists r.
  - intros (r & Hr & Hst & Hna & <-). exists (Location r). split; [reflexivity|].
    apply filter_In. split; [|now rewrite Hna]. apply in_map, filter_In.
    split; [assumption|now apply String.eqb_eq].
Qed.

Lemma times_In (df_long : list LongRecord) (x : string) :
  In x (times df_long)
  <-> In x TIME_ORDER /\ exists r, In r df_long /\ label_str (TimeLabel r) = x.
Proof.
  unfold times. rewrite filter_In, contains_In.
  unfold unique_str. rewrite (unique_by_In String.eqb String.eqb_eq), in_map_iff.
  split; intros (H1 & r & H2 & H3); (split; [assumption|]); exists r; tauto.
Qed.

(** X16: The option lists of the sidebar.  The stations, the locations of a
    station and the sources are each in ascending order without
    repetition, and they list exactly the texts of the cells that are not
    missing.  The times are the labels of [TIME_ORDER] that occur in the
    table. *)
Theorem sidebar_options (df_long : list LongRecord) (s : string) :
  (Sorted (fun a b => String.leb a b = true) (stations df_long)
   /\ List.NoDup (stations df_long)
   /\ forall x, In x (stations df_long) <->
        exists r, In r df_long /\ isna (Station r) = false
                  /\ astype_str (Station r) = x)
  /\ (Sorted (fun a b => String.leb a b = true) (avail_locs df_long s)
      /\ List.NoDup (avail_locs df_long s)
      /\ forall x, In x (avail_locs df_long s) <->
           exists r, In r df_long /\ astype_str (Station r) = s
                     /\ isna (Location r) = false /\ astype_str (Location r) = x)
  /\ (Sorted (fun a b => String.leb a b = true) (sources df_long)
      /\ List.NoDup (sources df_long)
      /\ forall x, In x (sources df_long) <-> exists r, In r df_long /\ Source r = x)
  /\ (forall x, In x (times df_long) <->
        In x TIME_ORDER /\ exists r, In r df_long /\ label_str (TimeLabel r) = x).
Proof.
  split; [|split; [|split]].
  - unfold stations. destruct (sorted_unique_str (map astype_str
      (List.filter (fun c => negb (isna c)) (map Station df_long)))) as (Hs & Hn & Hi).
    split; [exact Hs|]. split; [exact Hn|]. intros x. rewrite Hi. apply stations_In.
  - split; [apply sorted_unique_str|]. split; [apply sorted_unique_str|].
    apply avail_locs_In.
  - unfold sources. destruct (sorted_unique_str (map Source df_long)) as (Hs & Hn & Hi).
    split; [exact Hs|]. split; [exact Hn|]. intros x. rewrite Hi, in_map_iff.
    split; intros (r & H1 & H2); exists r; tauto.
  - apply times_In.
Qed.

(** X17: With every widget left at its default and the station [s] chosen,
    the mask keeps every record of the output of [to_long] whose station
    is the text [s], whose location is not missing and whose date is a
    timestamp; and whatever the selection, a record that the mask keeps is
    a record of the table whose station is the text selected. *)
Theorem default_selection_shows_station (df : ref) (st st' : Store)
    (df_long : list LongRecord) (s : string) (sel : Selection) :
  to_long df st = (st', inr df_long) ->
  default_selection df_long s = Some sel ->
  (forall r t, In r df_long -> Station r = CStr s -> isna (Location r) = false ->
               Date r = CTime t -> In r (filtered sel df_long))
  /\ (forall sel' r, In r (filtered sel' df_long) ->
        In r df_long /\ Station r = CStr (sel_station sel')).
Proof.
  intros Hrun Hsel. split.
  - intros r t Hr Hst Hloc Hdate.
    unfold default_selection in Hsel.
    destruct (default_range df_long) as [[lo hi]|] eqn:Hrange; [|discriminate].
    injection Hsel as <-. unfold default_range in Hrange.
    destruct (series_min _) as [tlo|] eqn:Hlo; [|discriminate].
    destruct (series_max _) as [thi|] eqn:Hhi; [|discriminate].
    injection Hrange as <- <-.
    assert (In t (timestamps (map Date df_long))) as Ht
      by (apply timestamps_In; rewrite <- Hdate; now apply in_map).
    apply filter_In. split; [assumption|]. unfold mask.
    cbn [start_date end_date sel_station sel_locs sel_sources sel_times].
    rewrite Hdate, Hst. cbn [dt_date date_ge date_le eq_text].
    rewrite String.eqb_refl.
    repeat (apply andb_true_iff; split); try reflexivity.
    + apply Z.leb_le, Z.div_le_mono; [reflexivity|]. now apply (series_min_le _ _ _ Hlo).
    + apply Z.leb_le, Z.div_le_mono; [reflexivity|]. now apply (series_max_ge _ _ _ Hhi).
    + apply contains_In, avail_locs_In.
      exists r. rewrite Hst. now repeat split.
    + apply contains_In. unfold sources.
      apply (proj2 (proj2 (sorted_unique_str _))). now apply in_map.
    + destruct (to_long_labels df st st' df_long r Hrun Hr) as (l & Hl & Hord).
      apply contains_In, times_In. rewrite Hl. split; [exact Hord|].
      exists r. split; [assumption|now rewrite Hl].
  - intros sel' r Hr. apply filter_In in Hr as [Hr Hmask]. split; [assumption|].
    unfold mask in Hmask. repeat (apply andb_true_iff in Hmask as [Hmask ?]).
    destruct (Station r) as [x| | |]; cbn [eq_text] in *; try discriminate.
    f_equal. now apply String.eqb_eq.
Qed.

End SidebarFacts.

Lemma default_selection_shows_station_witness :
  snd (@to_long Sample.ops 0 [Cases.two_families]) = inr Cases.two_families_out
  /\ exists sel,
       @default_selection Sample.ops Cases.two_families_out "A" = Some sel
       /\ @filtered Sample.ops sel Cases.two_families_out
          = [mkRow (CTime Sample.jan1) (CStr "A") (CStr "North") (CStr "Platform1")
                   "Manual07" 20%float "Manual" (Some "07:00");
             mkRow (CTime Sample.jan1) (CStr "A") (CStr "North") (CStr "Platform1")
                   "1400_BMS" 26.5%float "BMS" (Some "14:00")]
       /\ In (mkRow (CTime Sample.jan1) (CStr "A") (CStr "North") (CStr "Platform1")
                    "1400_BMS" 26.5%float "BMS" (Some "14:00"))
             (@filtered Sample.ops sel Cases.two_families_out).
Proof.
  split; [vm_compute; reflexivity|]. eexists.
  split; [vm_compute; reflexivity|]. split; [vm_compute; reflexivity|].
  apply (proj1 (@default_selection_shows_station Sample.ops 0 [Cases.two_families]
                  (fst (@to_long Sample.ops 0 [Cases.two_families]))
                  Cases.two_families_out "A" _
                  ltac:(vm_compute; reflexivity) ltac:(vm_compute; reflexivity))
           _ Sample.jan1);
    [vm_compute; tauto|reflexivity|reflexivity|reflexivity].
Defined.

(** ** The output against the caller's frame *)





Section InputFrame.

Context {ops : PandasOps}.


End InputFrame.

